(** * GaseraMux operator front end: live-event reconciliation

    A shallow embedding of the browser-side measurement control logic
    ([static/js/home_tab_core.js]) and of the jar grid / progress-circle
    helpers it calls ([home_tab_visual]), followed by the properties the
    specification states about them.

    Conventions of the embedding:
    - the page (module-level [let] variables, the DOM nodes the handlers
      touch, [window.*] fields and [sessionStorage]) is one record [State];
      every handler is a function [State -> ... -> State];
    - JSON numbers carried by progress events are integers ([Z]); the only
      non-integral values arise from the division in [updateRepeatInfo] and
      are kept as exact rationals extended with the IEEE special values
      ([num]); rounding of finite quotients is not modelled;
    - outward effects that leave the page (console warnings, HTTP requests,
      calls of the summary toast, calls into display helpers that live in
      other files) are appended to the [log] field, oldest first. *)

From Stdlib Require Import ZArith QArith Qreduction Ascii String Lia.
From Stdlib Require Import DecimalString DecimalZ DecimalPos.
From stdpp Require Import gmap strings list.

Open Scope Z_scope.

(** ** JavaScript values and built-ins *)

Module JS.

(** A JavaScript number as far as the progress circles need it. *)
Inductive num : Type :=
| NaN
| NegInf
| Fin (q : Q)
| PosInf.

Definition ofZ (z : Z) : num := Fin (inject_Z z).

(** [a / b] on integer operands. *)
Definition div (a b : Z) : num :=
  if b =? 0 then
    if 0 <? a then PosInf else if a <? 0 then NegInf else NaN
  else Fin (Qred (inject_Z a / inject_Z b)).

(** [x * k] for a positive finite constant [k]. *)
Definition mul (x : num) (k : Q) : num :=
  match x with
  | Fin q => Fin (Qred (q * k))
  | other => other
  end.

(** [x || 0]: the falsy numbers are [NaN] and zero. *)
Definition or0 (x : num) : num :=
  match x with
  | NaN => Fin 0
  | Fin q => if Qeq_bool q 0 then Fin 0 else Fin q
  | other => other
  end.

(** [Math.min(k, x)] and [Math.max(k, x)] for a finite constant [k]. *)
Definition min (k : Q) (x : num) : num :=
  match x with
  | NaN => NaN
  | NegInf => NegInf
  | Fin q => if Qle_bool q k then Fin q else Fin k
  | PosInf => Fin k
  end.

Definition max (k : Q) (x : num) : num :=
  match x with
  | NaN => NaN
  | NegInf => Fin k
  | Fin q => if Qle_bool k q then Fin q else Fin k
  | PosInf => PosInf
  end.

(** [x <= k] for a finite constant [k]. *)
Definition le (x : num) (k : Q) : bool :=
  match x with
  | NaN => false
  | NegInf => true
  | Fin q => Qle_bool q k
  | PosInf => false
  end.

(** [a % b] on integers takes the sign of the dividend. *)
Definition rem (a b : Z) : Z := Z.rem a b.

(** [Number.prototype.toString] on an integer. *)
Definition toString (z : Z) : string := NilZero.string_of_int (Z.to_int z).

(** [parseInt(s, 10)]: leading white space is skipped, an optional sign is
    read, then the longest run of decimal digits; [None] stands for [NaN]. *)
Definition digit_of (c : ascii) : option Z :=
  let n := Z.of_N (N_of_ascii c) in
  if (48 <=? n) && (n <=? 57) then Some (n - 48) else None.

Definition is_space (c : ascii) : bool :=
  let n := N_of_ascii c in
  ((9 <=? n) && (n <=? 13))%N || (n =? 32)%N.

Fixpoint parse_digits (s : string) (acc : Z) : Z :=
  match s with
  | String c s' =>
      match digit_of c with
      | Some d => parse_digits s' (10 * acc + d)
      | None => acc
      end
  | EmptyString => acc
  end.

Definition parse_unsigned (s : string) : option Z :=
  match s with
  | String c _ =>
      match digit_of c with
      | Some _ => Some (parse_digits s 0)
      | None => None
      end
  | EmptyString => None
  end.

Fixpoint skip_spaces (s : string) : string :=
  match s with
  | String c s' => if is_space c then skip_spaces s' else s
  | EmptyString => s
  end.

Definition parseInt (s : string) : option Z :=
  match skip_spaces s with
  | String "-" s' => Z.opp <$> parse_unsigned s'
  | String "+" s' => parse_unsigned s'
  | s' => parse_unsigned s'
  end.

(** [(n + 1).toString()] where [n] may be [NaN]. *)
Definition succ_toString (n : option Z) : string :=
  match n with
  | Some z => toString (z + 1)
  | None => "NaN"
  end.

(** [s.includes(c)] for a one-character needle. *)
Fixpoint includes (c : ascii) (s : string) : bool :=
  match s with
  | String c' s' => if Ascii.eqb c c' then true else includes c s'
  | EmptyString => false
  end.

(** [s || d] on strings: the empty string is falsy. *)
Definition str_or (s : option string) (d : string) : string :=
  match s with
  | Some "" | None => d
  | Some v => v
  end.

End JS.

(** ** The page

    DOM nodes are records of the attributes the scripts read or write; a
    class list is one boolean per class token the scripts mention. *)

(** One [.jar] element: the tokens [active], [sampling], [sampled] and
    [paused] of its class list.  The jar at list index [i] carries
    [data-id = i + 1]. *)
Record Jar : Type := mkJar {
  active : bool;
  sampling : bool;
  sampled : bool;
  paused : bool
}.

Definition jar_active (v : bool) (j : Jar) : Jar :=
  {| active := v; sampling := sampling j; sampled := sampled j;
     paused := paused j |}.

Definition jar_sampling (v : bool) (j : Jar) : Jar :=
  {| active := active j; sampling := v; sampled := sampled j;
     paused := paused j |}.

Definition jar_sampled (v : bool) (j : Jar) : Jar :=
  {| active := active j; sampling := sampling j; sampled := v;
     paused := paused j |}.

Definition jar_paused (v : bool) (j : Jar) : Jar :=
  {| active := active j; sampling := sampling j; sampled := sampled j;
     paused := v |}.

Definition TOTAL_JARS : nat := 31.

(** [#btnStart] and [#btnAbort]. *)
Record StartButton : Type := mkStartButton {
  disabled : bool;
  textContent : string;
  btn_success : bool;
  btn_warning : bool;
  data_phase : option string;
  data_previousPhase : option string
}.

Definition start_disabled (v : bool) (b : StartButton) : StartButton :=
  {| disabled := v; textContent := textContent b;
     btn_success := btn_success b; btn_warning := btn_warning b;
     data_phase := data_phase b;
     data_previousPhase := data_previousPhase b |}.

Definition start_textContent (v : string) (b : StartButton) : StartButton :=
  {| disabled := disabled b; textContent := v; btn_success := btn_success b;
     btn_warning := btn_warning b; data_phase := data_phase b;
     data_previousPhase := data_previousPhase b |}.

Definition start_btn_success (v : bool) (b : StartButton) : StartButton :=
  {| disabled := disabled b; textContent := textContent b; btn_success := v;
     btn_warning := btn_warning b; data_phase := data_phase b;
     data_previousPhase := data_previousPhase b |}.

Definition start_btn_warning (v : bool) (b : StartButton) : StartButton :=
  {| disabled := disabled b; textContent := textContent b;
     btn_success := btn_success b; btn_warning := v;
     data_phase := data_phase b;
     data_previousPhase := data_previousPhase b |}.

Definition start_data_phase (v : option string) (b : StartButton) : StartButton :=
  {| disabled := disabled b; textContent := textContent b;
     btn_success := btn_success b; btn_warning := btn_warning b;
     data_phase := v; data_previousPhase := data_previousPhase b |}.

Definition start_data_previousPhase (v : option string) (b : StartButton) : StartButton :=
  {| disabled := disabled b; textContent := textContent b;
     btn_success := btn_success b; btn_warning := btn_warning b;
     data_phase := data_phase b; data_previousPhase := v |}.

Record AbortButton : Type := mkAbortButton {
  abort_disabled : bool;
  abort_textContent : string
}.

(** [#jarGrid] and [#gridLockIcon]. *)
Record GridLock : Type := mkGridLock {
  grid_locked : bool;
  icon_lock : bool;
  icon_unlock : bool;
  icon_title : string
}.

(** [#channelBadge] and [#channelCircle]. *)
Record ChannelInfo : Type := mkChannelInfo {
  badge : string;
  circle_phase : string
}.

(** A progress circle with its text node: the first component of
    [stroke-dasharray], the label and [data-pct]. *)
Record Circle : Type := mkCircle {
  stroke_pct : JS.num;
  label : string;
  data_pct : string
}.

(** [#centerToast], together with what its click listener closed over. *)
Record Toast : Type := mkToast {
  toast_type : string;
  toast_message : string;
  toast_html : bool;
  toast_dismissed : gmap string bool;
  toast_dismissKey : string
}.

(** The three numeric inputs of [#configForm]. *)
Record PrefsForm : Type := mkPrefsForm {
  cfgMeasure : Z;
  cfgPause : Z;
  cfgRepeat : Z
}.

Record PrefsData : Type := mkPrefsData {
  measurement_duration : Z;
  pause_seconds : Z;
  repeat_count : Z;
  include_channels : list bool
}.

(** [window.latest*], stored for the timer display. *)
Record Latest : Type := mkLatest {
  latestElapsedSeconds : Z;
  latestTtSeconds : Z;
  latestNextChannel : Z;
  latestCurrentChannel : Z
}.

(** A progress event as it arrives on the stream; [None] is an absent (or
    [null]) field. *)
Record Event : Type := mkEvent {
  current_channel : option Z;
  repeat_index : option Z;
  repeat : option Z;
  percent : option Z;
  overall_percent : option Z;
  phase : option string;
  step_index : option Z;
  enabled_count : option Z;
  repeat_total : option Z;
  total_steps : option Z;
  elapsed_seconds : option Z;
  tt_seconds : option Z;
  next_channel : option Z
}.

(** What [fetch(...).then(r => r.json())] settles to. *)
Inductive Response : Type :=
| Json (ok : bool) (message : string)
| Rejected (reason : string).

(** Effects that leave the page. *)
Inductive Effect : Type :=
| Warn (tag detail : string)
| SummaryToast (title : string) (completedSteps totalSteps : Z) (type : string)
| StartRequest (body : PrefsData)
| AbortRequest
| ETTTDisplay.

Record State : Type := mkState {
  (* module-level variables of home_tab_core.js *)
  currentChannel : Z;
  currentPhase : option string;
  countdownTimer : bool;
  intervalLive : bool;
  countdown : Z;
  (* window *)
  isMeasurementRunning : bool;
  latest : Latest;
  (* document *)
  btnStart : StartButton;
  btnAbort : AbortButton;
  jars : list Jar;
  gridLock : GridLock;
  channelInfo : ChannelInfo;
  repeatCircle : Circle;
  runCircle : Circle;
  overallCircle : Circle;
  centerToast : option Toast;
  prefsForm : PrefsForm;
  (* sessionStorage *)
  measurementCycle : option string;
  dismissedAlerts : gmap string bool;
  (* what [getMeasurementTiming()], a helper of another file, returns when
     called now *)
  measurementTiming : string;
  log : list Effect
}.

Definition set_currentChannel (v : Z) (st : State) : State :=
  {| currentChannel := v; currentPhase := currentPhase st;
     countdownTimer := countdownTimer st; intervalLive := intervalLive st;
     countdown := countdown st;
     isMeasurementRunning := isMeasurementRunning st; latest := latest st;
     btnStart := btnStart st; btnAbort := btnAbort st; jars := jars st;
     gridLock := gridLock st; channelInfo := channelInfo st;
     repeatCircle := repeatCircle st; runCircle := runCircle st;
     overallCircle := overallCircle st; centerToast := centerToast st;
     prefsForm := prefsForm st; measurementCycle := measurementCycle st;
     dismissedAlerts := dismissedAlerts st;
     measurementTiming := measurementTiming st; log := log st |}.

Definition set_currentPhase (v : option string) (st : State) : State :=
  {| currentChannel := currentChannel st; currentPhase := v;
     countdownTimer := countdownTimer st; intervalLive := intervalLive st;
     countdown := countdown st;
     isMeasurementRunning := isMeasurementRunning st; latest := latest st;
     btnStart := btnStart st; btnAbort := btnAbort st; jars := jars st;
     gridLock := gridLock st; channelInfo := channelInfo st;
     repeatCircle := repeatCircle st; runCircle := runCircle st;
     overallCircle := overallCircle st; centerToast := centerToast st;
     prefsForm := prefsForm st; measurementCycle := measurementCycle st;
     dismissedAlerts := dismissedAlerts st;
     measurementTiming := measurementTiming st; log := log st |}.

Definition set_countdownTimer (v : bool) (st : State) : State :=
  {| currentChannel := currentChannel st; currentPhase := currentPhase st;
     countdownTimer := v; intervalLive := intervalLive st;
     countdown := countdown st;
     isMeasurementRunning := isMeasurementRunning st; latest := latest st;
     btnStart := btnStart st; btnAbort := btnAbort st; jars := jars st;
     gridLock := gridLock st; channelInfo := channelInfo st;
     repeatCircle := repeatCircle st; runCircle := runCircle st;
     overallCircle := overallCircle st; centerToast := centerToast st;
     prefsForm := prefsForm st; measurementCycle := measurementCycle st;
     dismissedAlerts := dismissedAlerts st;
     measurementTiming := measurementTiming st; log := log st |}.

Definition set_intervalLive (v : bool) (st : State) : State :=
  {| currentChannel := currentChannel st; currentPhase := currentPhase st;
     countdownTimer := countdownTimer st; intervalLive := v;
     countdown := countdown st;
     isMeasurementRunning := isMeasurementRunning st; latest := latest st;
     btnStart := btnStart st; btnAbort := btnAbort st; jars := jars st;
     gridLock := gridLock st; channelInfo := channelInfo st;
     repeatCircle := repeatCircle st; runCircle := runCircle st;
     overallCircle := overallCircle st; centerToast := centerToast st;
     prefsForm := prefsForm st; measurementCycle := measurementCycle st;
     dismissedAlerts := dismissedAlerts st;
     measurementTiming := measurementTiming st; log := log st |}.

Definition set_countdown (v : Z) (st : State) : State :=
  {| currentChannel := currentChannel st; currentPhase := currentPhase st;
     countdownTimer := countdownTimer st; intervalLive := intervalLive st;
     countdown := v; isMeasurementRunning := isMeasurementRunning st;
     latest := latest st; btnStart := btnStart st; btnAbort := btnAbort st;
     jars := jars st; gridLock := gridLock st; channelInfo := channelInfo st;
     repeatCircle := repeatCircle st; runCircle := runCircle st;
     overallCircle := overallCircle st; centerToast := centerToast st;
     prefsForm := prefsForm st; measurementCycle := measurementCycle st;
     dismissedAlerts := dismissedAlerts st;
     measurementTiming := measurementTiming st; log := log st |}.

Definition set_isMeasurementRunning (v : bool) (st : State) : State :=
  {| currentChannel := currentChannel st; currentPhase := currentPhase st;
     countdownTimer := countdownTimer st; intervalLive := intervalLive st;
     countdown := countdown st; isMeasurementRunning := v;
     latest := latest st; btnStart := btnStart st; btnAbort := btnAbort st;
     jars := jars st; gridLock := gridLock st; channelInfo := channelInfo st;
     repeatCircle := repeatCircle st; runCircle := runCircle st;
     overallCircle := overallCircle st; centerToast := centerToast st;
     prefsForm := prefsForm st; measurementCycle := measurementCycle st;
     dismissedAlerts := dismissedAlerts st;
     measurementTiming := measurementTiming st; log := log st |}.

Definition set_latest (v : Latest) (st : State) : State :=
  {| currentChannel := currentChannel st; currentPhase := currentPhase st;
     countdownTimer := countdownTimer st; intervalLive := intervalLive st;
     countdown := countdown st;
     isMeasurementRunning := isMeasurementRunning st; latest := v;
     btnStart := btnStart st; btnAbort := btnAbort st; jars := jars st;
     gridLock := gridLock st; channelInfo := channelInfo st;
     repeatCircle := repeatCircle st; runCircle := runCircle st;
     overallCircle := overallCircle st; centerToast := centerToast st;
     prefsForm := prefsForm st; measurementCycle := measurementCycle st;
     dismissedAlerts := dismissedAlerts st;
     measurementTiming := measurementTiming st; log := log st |}.

Definition set_btnStart (v : StartButton) (st : State) : State :=
  {| currentChannel := currentChannel st; currentPhase := currentPhase st;
     countdownTimer := countdownTimer st; intervalLive := intervalLive st;
     countdown := countdown st;
     isMeasurementRunning := isMeasurementRunning st; latest := latest st;
     btnStart := v; btnAbort := btnAbort st; jars := jars st;
     gridLock := gridLock st; channelInfo := channelInfo st;
     repeatCircle := repeatCircle st; runCircle := runCircle st;
     overallCircle := overallCircle st; centerToast := centerToast st;
     prefsForm := prefsForm st; measurementCycle := measurementCycle st;
     dismissedAlerts := dismissedAlerts st;
     measurementTiming := measurementTiming st; log := log st |}.

Definition set_btnAbort (v : AbortButton) (st : State) : State :=
  {| currentChannel := currentChannel st; currentPhase := currentPhase st;
     countdownTimer := countdownTimer st; intervalLive := intervalLive st;
     countdown := countdown st;
     isMeasurementRunning := isMeasurementRunning st; latest := latest st;
     btnStart := btnStart st; btnAbort := v; jars := jars st;
     gridLock := gridLock st; channelInfo := channelInfo st;
     repeatCircle := repeatCircle st; runCircle := runCircle st;
     overallCircle := overallCircle st; centerToast := centerToast st;
     prefsForm := prefsForm st; measurementCycle := measurementCycle st;
     dismissedAlerts := dismissedAlerts st;
     measurementTiming := measurementTiming st; log := log st |}.

Definition set_jars (v : list Jar) (st : State) : State :=
  {| currentChannel := currentChannel st; currentPhase := currentPhase st;
     countdownTimer := countdownTimer st; intervalLive := intervalLive st;
     countdown := countdown st;
     isMeasurementRunning := isMeasurementRunning st; latest := latest st;
     btnStart := btnStart st; btnAbort := btnAbort st; jars := v;
     gridLock := gridLock st; channelInfo := channelInfo st;
     repeatCircle := repeatCircle st; runCircle := runCircle st;
     overallCircle := overallCircle st; centerToast := centerToast st;
     prefsForm := prefsForm st; measurementCycle := measurementCycle st;
     dismissedAlerts := dismissedAlerts st;
     measurementTiming := measurementTiming st; log := log st |}.

Definition set_gridLock (v : GridLock) (st : State) : State :=
  {| currentChannel := currentChannel st; currentPhase := currentPhase st;
     countdownTimer := countdownTimer st; intervalLive := intervalLive st;
     countdown := countdown st;
     isMeasurementRunning := isMeasurementRunning st; latest := latest st;
     btnStart := btnStart st; btnAbort := btnAbort st; jars := jars st;
     gridLock := v; channelInfo := channelInfo st;
     repeatCircle := repeatCircle st; runCircle := runCircle st;
     overallCircle := overallCircle st; centerToast := centerToast st;
     prefsForm := prefsForm st; measurementCycle := measurementCycle st;
     dismissedAlerts := dismissedAlerts st;
     measurementTiming := measurementTiming st; log := log st |}.

Definition set_channelInfo (v : ChannelInfo) (st : State) : State :=
  {| currentChannel := currentChannel st; currentPhase := currentPhase st;
     countdownTimer := countdownTimer st; intervalLive := intervalLive st;
     countdown := countdown st;
     isMeasurementRunning := isMeasurementRunning st; latest := latest st;
     btnStart := btnStart st; btnAbort := btnAbort st; jars := jars st;
     gridLock := gridLock st; channelInfo := v;
     repeatCircle := repeatCircle st; runCircle := runCircle st;
     overallCircle := overallCircle st; centerToast := centerToast st;
     prefsForm := prefsForm st; measurementCycle := measurementCycle st;
     dismissedAlerts := dismissedAlerts st;
     measurementTiming := measurementTiming st; log := log st |}.

Definition set_repeatCircle (v : Circle) (st : State) : State :=
  {| currentChannel := currentChannel st; currentPhase := currentPhase st;
     countdownTimer := countdownTimer st; intervalLive := intervalLive st;
     countdown := countdown st;
     isMeasurementRunning := isMeasurementRunning st; latest := latest st;
     btnStart := btnStart st; btnAbort := btnAbort st; jars := jars st;
     gridLock := gridLock st; channelInfo := channelInfo st;
     repeatCircle := v; runCircle := runCircle st;
     overallCircle := overallCircle st; centerToast := centerToast st;
     prefsForm := prefsForm st; measurementCycle := measurementCycle st;
     dismissedAlerts := dismissedAlerts st;
     measurementTiming := measurementTiming st; log := log st |}.

Definition set_runCircle (v : Circle) (st : State) : State :=
  {| currentChannel := currentChannel st; currentPhase := currentPhase st;
     countdownTimer := countdownTimer st; intervalLive := intervalLive st;
     countdown := countdown st;
     isMeasurementRunning := isMeasurementRunning st; latest := latest st;
     btnStart := btnStart st; btnAbort := btnAbort st; jars := jars st;
     gridLock := gridLock st; channelInfo := channelInfo st;
     repeatCircle := repeatCircle st; runCircle := v;
     overallCircle := overallCircle st; centerToast := centerToast st;
     prefsForm := prefsForm st; measurementCycle := measurementCycle st;
     dismissedAlerts := dismissedAlerts st;
     measurementTiming := measurementTiming st; log := log st |}.

Definition set_overallCircle (v : Circle) (st : State) : State :=
  {| currentChannel := currentChannel st; currentPhase := currentPhase st;
     countdownTimer := countdownTimer st; intervalLive := intervalLive st;
     countdown := countdown st;
     isMeasurementRunning := isMeasurementRunning st; latest := latest st;
     btnStart := btnStart st; btnAbort := btnAbort st; jars := jars st;
     gridLock := gridLock st; channelInfo := channelInfo st;
     repeatCircle := repeatCircle st; runCircle := runCircle st;
     overallCircle := v; centerToast := centerToast st;
     prefsForm := prefsForm st; measurementCycle := measurementCycle st;
     dismissedAlerts := dismissedAlerts st;
     measurementTiming := measurementTiming st; log := log st |}.

Definition set_centerToast (v : option Toast) (st : State) : State :=
  {| currentChannel := currentChannel st; currentPhase := currentPhase st;
     countdownTimer := countdownTimer st; intervalLive := intervalLive st;
     countdown := countdown st;
     isMeasurementRunning := isMeasurementRunning st; latest := latest st;
     btnStart := btnStart st; btnAbort := btnAbort st; jars := jars st;
     gridLock := gridLock st; channelInfo := channelInfo st;
     repeatCircle := repeatCircle st; runCircle := runCircle st;
     overallCircle := overallCircle st; centerToast := v;
     prefsForm := prefsForm st; measurementCycle := measurementCycle st;
     dismissedAlerts := dismissedAlerts st;
     measurementTiming := measurementTiming st; log := log st |}.

Definition set_prefsForm (v : PrefsForm) (st : State) : State :=
  {| currentChannel := currentChannel st; currentPhase := currentPhase st;
     countdownTimer := countdownTimer st; intervalLive := intervalLive st;
     countdown := countdown st;
     isMeasurementRunning := isMeasurementRunning st; latest := latest st;
     btnStart := btnStart st; btnAbort := btnAbort st; jars := jars st;
     gridLock := gridLock st; channelInfo := channelInfo st;
     repeatCircle := repeatCircle st; runCircle := runCircle st;
     overallCircle := overallCircle st; centerToast := centerToast st;
     prefsForm := v; measurementCycle := measurementCycle st;
     dismissedAlerts := dismissedAlerts st;
     measurementTiming := measurementTiming st; log := log st |}.

Definition set_measurementCycle (v : option string) (st : State) : State :=
  {| currentChannel := currentChannel st; currentPhase := currentPhase st;
     countdownTimer := countdownTimer st; intervalLive := intervalLive st;
     countdown := countdown st;
     isMeasurementRunning := isMeasurementRunning st; latest := latest st;
     btnStart := btnStart st; btnAbort := btnAbort st; jars := jars st;
     gridLock := gridLock st; channelInfo := channelInfo st;
     repeatCircle := repeatCircle st; runCircle := runCircle st;
     overallCircle := overallCircle st; centerToast := centerToast st;
     prefsForm := prefsForm st; measurementCycle := v;
     dismissedAlerts := dismissedAlerts st;
     measurementTiming := measurementTiming st; log := log st |}.

Definition set_dismissedAlerts (v : gmap string bool) (st : State) : State :=
  {| currentChannel := currentChannel st; currentPhase := currentPhase st;
     countdownTimer := countdownTimer st; intervalLive := intervalLive st;
     countdown := countdown st;
     isMeasurementRunning := isMeasurementRunning st; latest := latest st;
     btnStart := btnStart st; btnAbort := btnAbort st; jars := jars st;
     gridLock := gridLock st; channelInfo := channelInfo st;
     repeatCircle := repeatCircle st; runCircle := runCircle st;
     overallCircle := overallCircle st; centerToast := centerToast st;
     prefsForm := prefsForm st; measurementCycle := measurementCycle st;
     dismissedAlerts := v; measurementTiming := measurementTiming st;
     log := log st |}.

Definition set_measurementTiming (v : string) (st : State) : State :=
  {| currentChannel := currentChannel st; currentPhase := currentPhase st;
     countdownTimer := countdownTimer st; intervalLive := intervalLive st;
     countdown := countdown st;
     isMeasurementRunning := isMeasurementRunning st; latest := latest st;
     btnStart := btnStart st; btnAbort := btnAbort st; jars := jars st;
     gridLock := gridLock st; channelInfo := channelInfo st;
     repeatCircle := repeatCircle st; runCircle := runCircle st;
     overallCircle := overallCircle st; centerToast := centerToast st;
     prefsForm := prefsForm st; measurementCycle := measurementCycle st;
     dismissedAlerts := dismissedAlerts st; measurementTiming := v;
     log := log st |}.

Definition set_log (v : list Effect) (st : State) : State :=
  {| currentChannel := currentChannel st; currentPhase := currentPhase st;
     countdownTimer := countdownTimer st; intervalLive := intervalLive st;
     countdown := countdown st;
     isMeasurementRunning := isMeasurementRunning st; latest := latest st;
     btnStart := btnStart st; btnAbort := btnAbort st; jars := jars st;
     gridLock := gridLock st; channelInfo := channelInfo st;
     repeatCircle := repeatCircle st; runCircle := runCircle st;
     overallCircle := overallCircle st; centerToast := centerToast st;
     prefsForm := prefsForm st; measurementCycle := measurementCycle st;
     dismissedAlerts := dismissedAlerts st;
     measurementTiming := measurementTiming st; log := v |}.

Definition emit (e : Effect) (st : State) : State :=
  set_log (log st ++ [e]) st.

(** ** Jar grid and progress circles (home_tab_visual) *)

Module Visual.

(** Click listener of the jar at index [i]. *)
Definition jarClick (i : nat) (st : State) : State :=
  if isMeasurementRunning st then st
  else
    let toggle j :=
      let j := jar_active (negb (active j)) j in
      jar_sampling false (jar_sampled false j) in
    set_jars (alter toggle i (jars st)) st.

Definition setAllJars (state : bool) (st : State) : State :=
  set_jars (jar_active state <$> jars st) st.

Definition getJarMask (st : State) : list bool :=
  active <$> jars st.

(** [!!mask[i]] is [false] beyond the end of [mask]. *)
Definition applyJarMask (mask : list bool) (st : State) : State :=
  set_jars (imap (fun i j => jar_active (default false (mask !! i)) j) (jars st)) st.

Definition invertJars (st : State) : State :=
  set_jars ((fun j => jar_active (negb (active j)) j) <$> jars st) st.

Definition resetJarStates (st : State) : State :=
  set_jars ((fun j => jar_sampled false (jar_sampling false j)) <$> jars st) st.

(** [document.querySelector(`.jar[data-id="${ch + 1}"]`)]: the index of the
    jar found, if any. *)
Definition jarIndex (ch : Z) (js : list Jar) : option nat :=
  if (0 <=? ch) && (ch <? Z.of_nat (length js)) then Some (Z.to_nat ch) else None.

Definition recolor (phase : string) (jar : Jar) : Jar :=
  let jar := jar_paused false (jar_sampling false jar) in
  if String.eqb phase "MEASURING" then
    jar_sampling true (jar_sampled false jar)
  else if String.eqb phase "PAUSED" then
    jar_paused true (jar_sampled false jar)
  else if String.eqb phase "SWITCHING" then
    jar_sampled true jar
  else jar.

Definition updateJarColors (ch : Z) (phase : string) (st : State) : State :=
  match jarIndex ch (jars st) with
  | None => st
  | Some i =>
      match jars st !! i with
      | None => st
      | Some jar =>
          if negb (active jar) then st
          else set_jars (<[i := recolor phase jar]> (jars st)) st
      end
  end.

Definition updateGridLock (st : State) : State :=
  let locked := isMeasurementRunning st in
  if locked then
    set_gridLock {| grid_locked := true; icon_lock := true; icon_unlock := false;
                    icon_title := "Grid locked during measurement" |} st
  else
    set_gridLock {| grid_locked := false; icon_lock := false; icon_unlock := true;
                    icon_title := "Grid unlocked" |} st.

Definition updateChannelInfo (ch : Z) (phase : string) (st : State) : State :=
  set_channelInfo {| badge := JS.toString (ch + 1); circle_phase := phase |} st.

Inductive CircleId : Type := repeatCircleId | runCircleId | overallCircleId.

Definition set_circle (el : CircleId) (c : Circle) (st : State) : State :=
  match el with
  | repeatCircleId => set_repeatCircle c st
  | runCircleId => set_runCircle c st
  | overallCircleId => set_overallCircle c st
  end.

Definition clamp (percent : JS.num) : JS.num :=
  JS.max 0 (JS.min 100 (JS.or0 percent)).

Definition colorRange (pct : JS.num) : string :=
  if JS.le pct 25 then "0-25"
  else if JS.le pct 50 then "26-50"
  else if JS.le pct 75 then "51-75"
  else "76-100".

Definition updateProgressCircle
    (el : CircleId) (percent : JS.num) (textContent : string) (st : State) : State :=
  let pct := clamp percent in
  set_circle el {| stroke_pct := pct; label := textContent;
                   data_pct := colorRange pct |} st.

(** [n || 0] on an integer. *)
Definition zor0 (n : Z) : Z := if n =? 0 then 0 else n.

Definition updateRepeatInfo (rep repeatTotal : Z) (st : State) : State :=
  let total := zor0 repeatTotal in
  let pct := JS.mul (JS.div rep total) 100 in
  updateProgressCircle repeatCircleId pct
    (JS.toString rep +:+ "/" +:+ JS.toString total) st.

Definition updateCycleProgress (pct stepIndex enabledCount : Z) (st : State) : State :=
  let total := zor0 enabledCount in
  let completedInCycle := if 0 <? total then JS.rem stepIndex total else 0 in
  updateProgressCircle runCircleId (JS.ofZ pct)
    (JS.toString completedInCycle +:+ "/" +:+ JS.toString total) st.

Definition updateCircularProgress (percent : Z) (st : State) : State :=
  let pct := Z.max 0 (Z.min 100 (zor0 percent)) in
  updateProgressCircle overallCircleId (JS.ofZ pct) (JS.toString pct +:+ "%") st.

(** [highlightSamplingJar(id)]: the sampling class is taken from every jar
    and given to the jar whose [data-id] is [id]. *)
Definition highlightSamplingJar (id : Z) (st : State) : State :=
  let mark i jar :=
    let jar := jar_sampling false jar in
    if Z.of_nat i + 1 =? id then jar_sampling true jar else jar in
  set_jars (imap mark (jars st)) st.

(** [getSelectedJars]: the [data-id]s of the selected jars, in document
    order. *)
Definition getSelectedJars (st : State) : list Z :=
  (fun p : nat * Jar => Z.of_nat p.1 + 1)
    <$> filter (fun p : nat * Jar => active p.2 = true) (imap pair (jars st)).

(** The loop of [getLastEnabledJar], entered with [i] one above the index
    examined next. *)
Fixpoint lastEnabledBelow (i : nat) (jarMask : list bool) : option nat :=
  match i with
  | O => None
  | S i' =>
      if default false (jarMask !! i') then Some i'
      else lastEnabledBelow i' jarMask
  end.

Definition getLastEnabledJar (st : State) : Z :=
  let jarMask := getJarMask st in
  match lastEnabledBelow (length jarMask) jarMask with
  | Some i => Z.of_nat i
  | None => Z.of_nat TOTAL_JARS - 1
  end.

End Visual.

(** ** Measurement control (home_tab_core.js) *)

Module Core.

Import Visual.

(** Modelled from the spec: [window.isActivePhase] is defined in a file that is
    not part of the sources at hand.  Section 3 of the specification calls
    MEASURING, PAUSED, SWITCHING and HOMING collectively "active"; the inline
    fallback in [SSEHandler] tests the same four literals. *)
Definition isActivePhase (phase : string) : bool :=
  String.eqb phase "MEASURING" || String.eqb phase "PAUSED"
  || String.eqb phase "SWITCHING" || String.eqb phase "HOMING".

(** *** Alerts *)

(** [showAlert] as home_tab_core.js declares it, with the per-cycle dismissal
    record.  [dismissed] is the parsed ["dismissedAlerts"] item (an absent or
    unparsable item reads as the empty record). *)
Definition showAlert (message type : string) (st : State) : State :=
  let idKey := type +:+ ":" +:+ message in
  let dismissed := dismissedAlerts st in
  let currentCycle := JS.str_or (measurementCycle st) "0" in
  let dismissKey := currentCycle +:+ ":" +:+ idKey in
  match dismissed !! dismissKey with
  | Some true => st
  | _ =>
      set_centerToast
        (Some {| toast_type := type; toast_message := message;
                 toast_html := JS.includes "<" message;
                 toast_dismissed := dismissed;
                 toast_dismissKey := dismissKey |}) st
  end.

(** Click on the toast: the listener writes back the record it closed over. *)
Definition dismissToast (st : State) : State :=
  match centerToast st with
  | None => st
  | Some t =>
      let dismissed := <[toast_dismissKey t := true]> (toast_dismissed t) in
      set_dismissedAlerts dismissed (set_centerToast None st)
  end.

(** The template literal of [showMeasurementSummaryToast]. *)
Definition summaryText (title : string) (completedSteps totalSteps : Z)
    (formattedTime : string) : string :=
  "<strong>" +:+ title +:+ "</strong><br>Completed: "
  +:+ JS.toString completedSteps +:+ "/" +:+ JS.toString totalSteps
  +:+ " steps<br>Duration: " +:+ formattedTime.

Definition showMeasurementSummaryToast
    (title : string) (completedSteps totalSteps : Z) (type : string)
    (st : State) : State :=
  let st := emit (SummaryToast title completedSteps totalSteps type) st in
  let formattedTime := measurementTiming st in
  showAlert (summaryText title completedSteps totalSteps formattedTime) type st.

(** *** Preferences *)

Definition collectPrefsData (st : State) : PrefsData :=
  {| measurement_duration := cfgMeasure (prefsForm st);
     pause_seconds := cfgPause (prefsForm st);
     repeat_count := cfgRepeat (prefsForm st);
     include_channels := getJarMask st |}.

Definition START_DELAY : Z := 5.

(** *** Phase handling *)

Definition clearCountdown (st : State) : State :=
  set_countdownTimer false (set_intervalLive false st).

Definition applyPhase (phase : string) (st : State) : State :=
  let st :=
    if countdownTimer st && negb (String.eqb phase "IDLE")
    then set_countdown START_DELAY (clearCountdown st)
    else st in
  let b := btnStart st in
  let b := start_disabled true b in
  let b := start_data_previousPhase (Some (JS.str_or (data_phase b) "null")) b in
  let b := start_data_phase (Some phase) b in
  let b := start_btn_warning false (start_btn_success false b) in
  let idle := String.eqb phase "IDLE" || String.eqb phase "ABORTED" in
  let b :=
    if idle then
      let b := start_textContent "Start Measurement" b in
      let b := start_btn_success true b in
      let b := start_disabled false b in
      let b := start_data_phase (Some "") b in
      start_data_previousPhase (Some "null") b
    else b in
  let a := btnAbort st in
  let a :=
    if idle && String.eqb phase "ABORTED"
    then {| abort_disabled := abort_disabled a; abort_textContent := "Aborted..." |}
    else a in
  let a := {| abort_disabled := negb (disabled b);
              abort_textContent := abort_textContent a |} in
  set_btnAbort a (set_btnStart b st).

(** *** Start and abort *)

Definition startMeasurement (st : State) : State :=
  let currentCycle := JS.parseInt (JS.str_or (measurementCycle st) "0") in
  let st := set_measurementCycle (Some (JS.succ_toString currentCycle)) st in
  let b := start_textContent "Starting…" (btnStart st) in
  let b := start_disabled true b in
  let st := set_btnStart b st in
  emit (StartRequest (collectPrefsData st)) st.

(** Settlement of the promise chain of the start request. *)
Definition startSettled (r : Response) (st : State) : State :=
  match r with
  | Json true _ => st
  | Json false message => emit (Warn "[MEAS] Start error:" message) st
  | Rejected e => emit (Warn "[MEAS] Start failed:" e) st
  end.

Definition startingIn (n : Z) : string :=
  "Starting in " +:+ JS.toString n +:+ "… (Cancel)".

(** [classList.replace(old, new)] on the two button styles. *)
Definition warning_to_success (b : StartButton) : StartButton :=
  if btn_warning b then start_btn_success true (start_btn_warning false b) else b.

Definition success_to_warning (b : StartButton) : StartButton :=
  if btn_success b then start_btn_warning true (start_btn_success false b) else b.

(** Click listener of [#btnStart]. *)
Definition btnStartClick (st : State) : State :=
  if isMeasurementRunning st then st
  else
    let st := set_countdown START_DELAY st in
    if countdownTimer st then
      let st := clearCountdown st in
      let b := start_textContent "Start Measurement" (btnStart st) in
      set_btnStart (warning_to_success b) st
    else
      let b := success_to_warning (btnStart st) in
      let b := start_textContent (startingIn (countdown st)) b in
      let st := set_btnStart b st in
      let st := set_btnAbort {| abort_disabled := abort_disabled (btnAbort st);
                                abort_textContent := "Abort" |} st in
      set_countdownTimer true (set_intervalLive true st).

(** One firing of the interval callback; a cleared interval never fires. *)
Definition countdownTick (st : State) : State :=
  if negb (intervalLive st) then st
  else if isMeasurementRunning st then set_intervalLive false st
  else
    let st := set_countdown (countdown st - 1) st in
    let text := if 0 <? countdown st then startingIn (countdown st) else "Starting…" in
    let st := set_btnStart (start_textContent text (btnStart st)) st in
    if countdown st <=? 0 then startMeasurement (clearCountdown st)
    else st.

(** [onConfirm] of the abort dialog and the settlement of its request. *)
Definition abortConfirmed (st : State) : State := emit AbortRequest st.

Definition abortSettled (r : Response) (st : State) : State :=
  match r with
  | Json true _ => st
  | Json false message => emit (Warn "[MEAS] Abort error:" message) st
  | Rejected e => emit (Warn "[MEAS] Abort failed:" e) st
  end.

(** *** Progress events *)

Inductive Completion : Type :=
| Normal
| Thrown (err : string).

(** [cur === p] for the stored phase, which starts out as [null]. *)
Definition phase_is (cur : option string) (p : string) : bool :=
  match cur with
  | Some c => String.eqb c p
  | None => false
  end.

(** The fields read from the payload, each with its [??] default. *)
Record Fields : Type := mkFields {
  ch : Z;
  rep : Z;
  pct : Z;
  overallPct : Z;
  newPhase : string;
  stepIndex : Z;
  enabledCount : Z;
  repeatTotal : Z;
  totalSteps : Z
}.

Definition extract (d : Event) : Fields :=
  {| ch := default 0 (current_channel d);
     rep := default (default 0 (repeat d)) (repeat_index d);
     pct := default 0 (percent d);
     overallPct := default 0 (overall_percent d);
     newPhase := default "IDLE" (phase d);
     stepIndex := default 0 (step_index d);
     enabledCount := default 0 (enabled_count d);
     repeatTotal := default 0 (repeat_total d);
     totalSteps := default 0 (total_steps d) |}.

Definition storeLatest (d : Event) (st : State) : State :=
  set_latest {| latestElapsedSeconds := default 0 (elapsed_seconds d);
                latestTtSeconds := default 0 (tt_seconds d);
                latestNextChannel := default 0 (next_channel d);
                latestCurrentChannel := default 0 (current_channel d) |} st.

(** Body of [if (channelChanged)]. *)
Definition onChannelChanged (f : Fields) (phaseChanged : bool) (st : State) : State :=
  let st := set_currentChannel (ch f) st in
  if phaseChanged && (ch f =? 0) then resetJarStates st else st.

(** The completion/abort notification; [currentPhase] still holds the previous
    phase here. *)
Definition notifySummary (f : Fields) (st : State) : State :=
  if String.eqb (newPhase f) "ABORTED" then
    showMeasurementSummaryToast
      "Measurement Aborted" (stepIndex f) (totalSteps f) "danger" st
  else if phase_is (currentPhase st) "SWITCHING"
          && String.eqb (newPhase f) "IDLE" then
    showMeasurementSummaryToast
      "Measurement Complete" (totalSteps f) (totalSteps f) "success" st
  else st.

(** Body of [if (phaseChanged)]. *)
Definition onPhaseChanged (f : Fields) (st : State) : State :=
  let st := applyPhase (newPhase f) st in
  let st := updateJarColors (ch f) (newPhase f) st in
  let st := set_isMeasurementRunning (isActivePhase (newPhase f)) st in
  let st := updateGridLock st in
  let st := if isActivePhase (newPhase f) then emit ETTTDisplay st else st in
  let st := notifySummary f st in
  set_currentPhase (Some (newPhase f)) st.

(** The three progress circles, refreshed on every event. *)
Definition updateCircles (f : Fields) (st : State) : State :=
  let st := updateRepeatInfo (rep f) (repeatTotal f) st in
  let st := updateCycleProgress (pct f) (stepIndex f) (enabledCount f) st in
  updateCircularProgress (overallPct f) st.

(** The [try] block of [SSEHandler]: the state reached and how the block was
    left.  Reading a property of a [null] payload throws before anything is
    written. *)
Definition SSEHandler_try (d : option Event) (st : State) : State * Completion :=
  match d with
  | None => (st, Thrown "TypeError")
  | Some d =>
      let f := extract d in
      let st := storeLatest d st in
      let channelChanged := negb (currentChannel st =? ch f) in
      let phaseChanged := negb (phase_is (currentPhase st) (newPhase f)) in
      let st := if channelChanged then onChannelChanged f phaseChanged st else st in
      let st := if phaseChanged then onPhaseChanged f st else st in
      let st :=
        if phaseChanged || channelChanged
        then updateChannelInfo (ch f) (newPhase f) st else st in
      (updateCircles f st, Normal)
  end.

Definition SSEHandler (d : option Event) (st : State) : State :=
  match SSEHandler_try d st with
  | (st, Normal) => st
  | (st, Thrown err) => emit (Warn "[SSE] parse error:" err) st
  end.

(** *** Page load *)

(** The JSON object [loadPreferences] receives. *)
Record Prefs : Type := mkPrefs {
  p_measurement_duration : option Z;
  p_pause_seconds : option Z;
  p_repeat_count : option Z;
  p_include_channels : option (list bool)
}.

Definition prefsLoaded (p : Prefs) (st : State) : State :=
  let st :=
    set_prefsForm {| cfgMeasure := default 300 (p_measurement_duration p);
                     cfgPause := default 5 (p_pause_seconds p);
                     cfgRepeat := default 1 (p_repeat_count p) |} st in
  applyJarMask (default [] (p_include_channels p)) st.

Definition blankJar : Jar :=
  {| active := false; sampling := false; sampled := false; paused := false |}.

Definition blankCircle : Circle :=
  {| stroke_pct := JS.Fin 0; label := ""; data_pct := "" |}.

(** The page once the scripts have run, before [DOMContentLoaded]. *)
Definition scriptsLoaded : State :=
  {| currentChannel := -1; currentPhase := None;
     countdownTimer := false; intervalLive := false; countdown := START_DELAY;
     isMeasurementRunning := false;
     latest := {| latestElapsedSeconds := 0; latestTtSeconds := 0;
                  latestNextChannel := 0; latestCurrentChannel := 0 |};
     btnStart := {| disabled := false; textContent := "";
                    btn_success := false; btn_warning := false;
                    data_phase := None; data_previousPhase := None |};
     btnAbort := {| abort_disabled := false; abort_textContent := "" |};
     jars := replicate TOTAL_JARS blankJar;
     gridLock := {| grid_locked := false; icon_lock := false;
                    icon_unlock := false; icon_title := "" |};
     channelInfo := {| badge := ""; circle_phase := "" |};
     repeatCircle := blankCircle; runCircle := blankCircle;
     overallCircle := blankCircle;
     centerToast := None;
     prefsForm := {| cfgMeasure := 0; cfgPause := 0; cfgRepeat := 0 |};
     measurementCycle := None; dismissedAlerts := ∅;
     measurementTiming := ""; log := [] |}.

(** The [DOMContentLoaded] listener (the preferences arrive later, as
    [prefsLoaded]). *)
Definition domContentLoaded (st : State) : State := applyPhase "IDLE" st.

Definition initial : State := domContentLoaded scriptsLoaded.

End Core.

(** ** The event loop

    Everything that can run on the page: one [Input] per listener or
    callback.  Handlers run to completion, one after the other. *)

Inductive Input : Type :=
| SSE (d : option Event)
| StartClick
| TimerTick
| StartSettled (r : Response)
| AbortConfirmed
| AbortSettled (r : Response)
| JarClick (i : nat)
| AllClick
| NoneClick
| InvertClick
| PrefsLoaded (p : Core.Prefs)
| ToastClick.

Definition step (st : State) (i : Input) : State :=
  match i with
  | SSE d => Core.SSEHandler d st
  | StartClick => Core.btnStartClick st
  | TimerTick => Core.countdownTick st
  | StartSettled r => Core.startSettled r st
  | AbortConfirmed => Core.abortConfirmed st
  | AbortSettled r => Core.abortSettled r st
  | JarClick n => Visual.jarClick n st
  | AllClick => Visual.setAllJars true st
  | NoneClick => Visual.setAllJars false st
  | InvertClick => Visual.invertJars st
  | PrefsLoaded p => Core.prefsLoaded p st
  | ToastClick => Core.dismissToast st
  end.

Definition run (st : State) (inputs : list Input) : State :=
  foldl step st inputs.

(** The run identifier as a number: [parseInt] of the stored item, an absent
    item counting as ["0"]; [None] is [NaN]. *)
Definition runId (st : State) : option Z :=
  JS.parseInt (JS.str_or (measurementCycle st) "0").

(** The start requests issued so far. *)
Definition is_start (e : Effect) : bool :=
  match e with StartRequest _ => true | _ => false end.

Definition startRequests (st : State) : nat :=
  length (filter (fun e => is_start e = true) (log st)).

(** The calls of the summary toast so far, oldest first. *)
Definition is_summary (e : Effect) : bool :=
  match e with SummaryToast _ _ _ _ => true | _ => false end.

Definition summaries (st : State) : list Effect :=
  filter (fun e => is_summary e = true) (log st).

(** ** Vocabulary of the statements *)

Import Visual Core.

(** The six phases the backend reports. *)
Definition PHASES : list string :=
  ["IDLE"; "MEASURING"; "PAUSED"; "SWITCHING"; "HOMING"; "ABORTED"].

(** The run-summary call a phase change from [prev] makes, if any. *)
Definition summaryOf (f : Fields) (prev : option string) : list Effect :=
  if String.eqb (newPhase f) "ABORTED" then
    [SummaryToast "Measurement Aborted" (stepIndex f) (totalSteps f) "danger"]
  else if phase_is prev "SWITCHING" && String.eqb (newPhase f) "IDLE" then
    [SummaryToast "Measurement Complete" (totalSteps f) (totalSteps f) "success"]
  else [].


(** The payload [{}]. *)
Definition emptyEvent : Event :=
  {| current_channel := None; repeat_index := None; repeat := None;
     percent := None; overall_percent := None; phase := None;
     step_index := None; enabled_count := None; repeat_total := None;
     total_steps := None; elapsed_seconds := None; tt_seconds := None;
     next_channel := None |}.

(** A payload carrying a channel, a phase, a step index and a step total. *)
Definition progress (c : Z) (p : string) (i n : Z) : Event :=
  {| current_channel := Some c; repeat_index := None; repeat := None;
     percent := None; overall_percent := None; phase := Some p;
     step_index := Some i; enabled_count := None; repeat_total := None;
     total_steps := Some n; elapsed_seconds := None; tt_seconds := None;
     next_channel := None |}.

(** A payload carrying only a phase. *)
Definition phaseOnly (p : string) : Event :=
  {| current_channel := None; repeat_index := None; repeat := None;
     percent := None; overall_percent := None; phase := Some p;
     step_index := None; enabled_count := None; repeat_total := None;
     total_steps := None; elapsed_seconds := None; tt_seconds := None;
     next_channel := None |}.

(** A payload carrying only a repeat index. *)
Definition repeatOnly (r : Z) : Event :=
  {| current_channel := None; repeat_index := Some r; repeat := None;
     percent := None; overall_percent := None; phase := None;
     step_index := None; enabled_count := None; repeat_total := None;
     total_steps := None; elapsed_seconds := None; tt_seconds := None;
     next_channel := None |}.

(** The start controller is idle: no run, no countdown. *)
Definition controllerIdle (st : State) : Prop :=
  isMeasurementRunning st = false
  /\ countdownTimer st = false
  /\ intervalLive st = false.

(** The start controller is counting down with [c] ticks to go. *)
Definition counting (c : Z) (st : State) : Prop :=
  isMeasurementRunning st = false
  /\ countdownTimer st = true
  /\ intervalLive st = true
  /\ countdown st = c.

(** The dedup key [showAlert] computes in state [st]. *)
Definition dismissKeyOf (st : State) (type message : string) : string :=
  JS.str_or (measurementCycle st) "0" +:+ ":" +:+ type +:+ ":" +:+ message.

(** A jar carries a transient marker. *)
Definition marked (j : Jar) : bool := sampling j || paused j.

(** No unselected jar carries the sampling or the paused marker. *)
Definition unselected_unmarked (js : list Jar) : Prop :=
  Forall (fun j => active j = false -> marked j = false) js.

(** Scenario A of the specification: jars 1 and 2 selected, two steps. *)
Definition scenarioMask : list bool := [true; true] ++ replicate 29 false.

Definition scenarioStart : State := applyJarMask scenarioMask initial.

(** The events up to and including SWITCHING on the second channel; the
    specification does not say which channel the closing IDLE event carries,
    so it is a parameter. *)
Definition scenarioPrefix : list Input :=
  [ SSE (Some (progress 0 "IDLE" 0 2));
    SSE (Some (progress 0 "MEASURING" 0 2));
    SSE (Some (progress 1 "MEASURING" 1 2));
    SSE (Some (progress 1 "SWITCHING" 1 2)) ].

Definition scenarioA (last : Z) : list Input :=
  scenarioPrefix ++ [ SSE (Some (progress last "IDLE" 2 2)) ].

(** The state reached after [scenarioPrefix], evaluated once. *)
Definition scenarioMid : State :=
  Eval vm_compute in run scenarioStart scenarioPrefix.

(** Value of a decimal numeral read left to right from accumulator [acc]. *)
Fixpoint uint_acc (d : Decimal.uint) (acc : Z) : Z :=
  match d with
  | Decimal.Nil => acc
  | Decimal.D0 d => uint_acc d (10 * acc + 0)
  | Decimal.D1 d => uint_acc d (10 * acc + 1)
  | Decimal.D2 d => uint_acc d (10 * acc + 2)
  | Decimal.D3 d => uint_acc d (10 * acc + 3)
  | Decimal.D4 d => uint_acc d (10 * acc + 4)
  | Decimal.D5 d => uint_acc d (10 * acc + 5)
  | Decimal.D6 d => uint_acc d (10 * acc + 6)
  | Decimal.D7 d => uint_acc d (10 * acc + 7)
  | Decimal.D8 d => uint_acc d (10 * acc + 8)
  | Decimal.D9 d => uint_acc d (10 * acc + 9)
  end.

(** A jar shows at most one of the three markers. *)
Definition one_marker (j : Jar) : Prop :=
  (sampling j && sampled j = false)
  /\ (sampling j && paused j = false)
  /\ (sampled j && paused j = false).

(** The timer handle is set exactly while the interval is pending, and never
    during a run. *)
Definition countdown_safe (st : State) : Prop :=
  countdownTimer st = intervalLive st
  /\ (isMeasurementRunning st = true -> countdownTimer st = false).

(** The record a displayed toast closed over is the record in the session
    store. *)
Definition toast_fresh (st : State) : Prop :=
  forall t, centerToast st = Some t -> toast_dismissed t = dismissedAlerts st.

(** The grid lock shows the running flag. *)
Definition lock_consistent (st : State) : Prop :=
  grid_locked (gridLock st) = isMeasurementRunning st
  /\ icon_lock (gridLock st) = isMeasurementRunning st.

(** Once a phase is stored, the channel display shows the stored pair. *)
Definition display_consistent (st : State) : Prop :=
  forall p, currentPhase st = Some p ->
    channelInfo st
    = {| badge := JS.toString (currentChannel st + 1); circle_phase := p |}.

(** The start button is enabled exactly for the two resting phases, and the
    abort button is its opposite. *)
Definition resting (p : string) : bool :=
  String.eqb p "IDLE" || String.eqb p "ABORTED".

(** A circle whose stroke is a finite percentage between 0 and 100. *)
Definition circle_in_range (c : Circle) : Prop :=
  exists q, stroke_pct c = JS.Fin q /\ (0 <= q)%Q /\ (q <= 100)%Q.

(** [n] clamped to a percentage. *)
Definition clampZ (n : Z) : Z := Z.max 0 (Z.min 100 n).

(** * Properties *)

(** ** Built-ins *)

Example toString_samples :
  (JS.toString 0, JS.toString 15, JS.toString (-7)) = ("0", "15", "-7")%string.
Proof. reflexivity. Qed.

Example parseInt_samples :
  (JS.parseInt "0", JS.parseInt " 42px", JS.parseInt "-7", JS.parseInt "abc")
  = (Some 0, Some 42, Some (-7), None).
Proof. reflexivity. Qed.

Example div_samples :
  (JS.div 1 2, JS.div 1 0, JS.div 0 0, JS.div (-1) 0)
  = (JS.Fin (1 # 2), JS.PosInf, JS.NaN, JS.NegInf).
Proof. reflexivity. Qed.

Lemma parse_digits_uint d acc :
  JS.parse_digits (NilEmpty.string_of_uint d) acc = uint_acc d acc.
Proof.
  revert acc. induction d; intros acc; simpl; try reflexivity; apply IHd.
Qed.

Lemma uint_acc_pos d p : uint_acc d (Z.pos p) = Z.pos (Pos.of_uint_acc d p).
Proof.
  revert p. induction d; intros p; simpl; try reflexivity;
    rewrite <- IHd; f_equal; lia.
Qed.

Lemma uint_acc_0 d : uint_acc d 0 = Z.of_uint d.
Proof.
  unfold Z.of_uint.
  induction d; simpl; try reflexivity; try assumption;
    rewrite <- uint_acc_pos; reflexivity.
Qed.

Lemma parseInt_digit_head c s :
  is_Some (JS.digit_of c) ->
  JS.parseInt (String c s) = JS.parse_unsigned (String c s).
Proof.
  destruct c as [[] [] [] [] [] [] [] []]; intros [v H];
    try discriminate H; reflexivity.
Qed.

Lemma head_digit d :
  d <> Decimal.Nil ->
  exists c s, NilEmpty.string_of_uint d = String c s /\ is_Some (JS.digit_of c).
Proof.
  destruct d; intros H; try congruence; simpl; do 2 eexists;
    (split; [reflexivity|]); eexists; reflexivity.
Qed.

Lemma parse_unsigned_uint d :
  d <> Decimal.Nil ->
  JS.parse_unsigned (NilEmpty.string_of_uint d) = Some (Z.of_uint d).
Proof.
  intros H. destruct (head_digit d H) as (c & s & E & [v Hv]).
  unfold JS.parse_unsigned. rewrite E, Hv, <- E, parse_digits_uint, uint_acc_0.
  reflexivity.
Qed.

Lemma to_uint_nonnil p : Pos.to_uint p <> Decimal.Nil.
Proof.
  intros H. pose proof (DecimalPos.Unsigned.of_to p) as E.
  rewrite H in E. discriminate.
Qed.

Lemma string_of_pos p :
  NilZero.string_of_uint (Pos.to_uint p) = NilEmpty.string_of_uint (Pos.to_uint p).
Proof.
  pose proof (to_uint_nonnil p).
  destruct (Pos.to_uint p); first [congruence | reflexivity].
Qed.

Lemma parse_unsigned_pos p :
  JS.parse_unsigned (NilEmpty.string_of_uint (Pos.to_uint p)) = Some (Z.pos p).
Proof.
  rewrite parse_unsigned_uint by apply to_uint_nonnil.
  unfold Z.of_uint. rewrite DecimalPos.Unsigned.of_to. reflexivity.
Qed.

(** Reading back a printed integer gives the integer. *)
Lemma parseInt_toString z : JS.parseInt (JS.toString z) = Some z.
Proof.
  unfold JS.toString. destruct z as [|p|p]; [reflexivity| |]; simpl;
    rewrite string_of_pos.
  - destruct (head_digit _ (to_uint_nonnil p)) as (c & s & E & Hd).
    rewrite E, parseInt_digit_head, <- E by assumption.
    apply parse_unsigned_pos.
  - unfold JS.parseInt. simpl. rewrite parse_unsigned_pos. reflexivity.
Qed.

Lemma append_cons c (s t : string) : String c s +:+ t = String c (s +:+ t).
Proof. reflexivity. Qed.



(** ** Footprints of the helpers

    Each helper writes a fixed set of fields; whatever it writes, the other
    fields are those of its argument. *)

Lemma applyPhase_shape p st :
  exists t l c b a,
    applyPhase p st =
    set_btnAbort a (set_btnStart b (set_countdown c
      (set_countdownTimer t (set_intervalLive l st)))).
Proof.
  unfold applyPhase, clearCountdown. destruct st; simpl.
  destruct (_ && _); simpl; do 5 eexists; reflexivity.
Qed.

Lemma updateJarColors_shape c p st :
  exists js, updateJarColors c p st = set_jars js st.
Proof.
  unfold updateJarColors.
  repeat case_match; try (eexists; reflexivity);
    exists (jars st); destruct st; reflexivity.
Qed.

Lemma updateGridLock_shape st : exists g, updateGridLock st = set_gridLock g st.
Proof. unfold updateGridLock. case_match; eexists; reflexivity. Qed.

Lemma showAlert_shape m t st : exists c, showAlert m t st = set_centerToast c st.
Proof.
  unfold showAlert. repeat case_match; try (eexists; reflexivity);
    exists (centerToast st); destruct st; reflexivity.
Qed.

Lemma updateCircles_shape f st :
  exists r c o,
    updateCircles f st = set_overallCircle o (set_runCircle c (set_repeatCircle r st)).
Proof. do 3 eexists. reflexivity. Qed.

Ltac shapes :=
  repeat match goal with
  | |- context [applyPhase ?p ?s] =>
      let H := fresh in
      destruct (applyPhase_shape p s) as (? & ? & ? & ? & ? & H);
      rewrite H; clear H
  | |- context [updateJarColors ?c ?p ?s] =>
      let H := fresh in
      destruct (updateJarColors_shape c p s) as (? & H); rewrite H; clear H
  | |- context [updateGridLock ?s] =>
      let H := fresh in
      destruct (updateGridLock_shape s) as (? & H); rewrite H; clear H
  | |- context [showAlert ?m ?t ?s] =>
      let H := fresh in
      destruct (showAlert_shape m t s) as (? & H); rewrite H; clear H
  | |- context [updateCircles ?f ?s] =>
      let H := fresh in
      destruct (updateCircles_shape f s) as (? & ? & ? & H); rewrite H; clear H
  end.

(** ** The reconciliation step, field by field *)

(** [SSEHandler] on an object payload, with the two change flags named. *)
Lemma SSEHandler_obj d st :
  SSEHandler (Some d) st =
  let f := extract d in
  let channelChanged := negb (currentChannel st =? ch f) in
  let phaseChanged := negb (phase_is (currentPhase st) (newPhase f)) in
  let st := storeLatest d st in
  let st := if channelChanged then onChannelChanged f phaseChanged st else st in
  let st := if phaseChanged then onPhaseChanged f st else st in
  let st :=
    if phaseChanged || channelChanged
    then updateChannelInfo (ch f) (newPhase f) st else st in
  updateCircles f st.
Proof. reflexivity. Qed.

Lemma phase_is_true cur p : phase_is cur p = true <-> cur = Some p.
Proof.
  destruct cur as [c|]; simpl; [|split; discriminate].
  rewrite String.eqb_eq. split; congruence.
Qed.

Lemma log_onPhaseChanged f st :
  log (onPhaseChanged f st) =
  log st ++ (if isActivePhase (newPhase f) then [ETTTDisplay] else [])
         ++ summaryOf f (currentPhase st).
Proof.
  unfold onPhaseChanged, notifySummary, summaryOf, showMeasurementSummaryToast, emit.
  shapes.
  destruct (isActivePhase _), (String.eqb (newPhase f) "ABORTED"); simpl.
  all: shapes; simpl.
  all: try destruct (phase_is _ _ && _); shapes; simpl.
  all: rewrite ?app_nil_r, <- ?app_assoc; reflexivity.
Qed.

Lemma onPhaseChanged_stored f st :
  currentPhase (onPhaseChanged f st) = Some (newPhase f)
  /\ currentChannel (onPhaseChanged f st) = currentChannel st
  /\ measurementCycle (onPhaseChanged f st) = measurementCycle st
  /\ dismissedAlerts (onPhaseChanged f st) = dismissedAlerts st
  /\ latest (onPhaseChanged f st) = latest st.
Proof.
  unfold onPhaseChanged, notifySummary, showMeasurementSummaryToast, emit.
  shapes.
  destruct (isActivePhase _), (String.eqb (newPhase f) "ABORTED"); simpl.
  all: shapes; simpl.
  all: try destruct (phase_is _ _ && _); shapes; simpl.
  all: repeat split; reflexivity.
Qed.

Lemma onChannelChanged_stored f pc st :
  currentChannel (onChannelChanged f pc st) = ch f
  /\ currentPhase (onChannelChanged f pc st) = currentPhase st
  /\ measurementCycle (onChannelChanged f pc st) = measurementCycle st
  /\ dismissedAlerts (onChannelChanged f pc st) = dismissedAlerts st
  /\ log (onChannelChanged f pc st) = log st
  /\ latest (onChannelChanged f pc st) = latest st.
Proof.
  unfold onChannelChanged, resetJarStates.
  destruct (pc && _); repeat split; reflexivity.
Qed.

#[local] Opaque extract onChannelChanged onPhaseChanged.

(** The effects one progress event appends to the log. *)
Lemma log_SSEHandler d st :
  log (SSEHandler (Some d) st) =
  log st ++
  (if phase_is (currentPhase st) (newPhase (extract d)) then []
   else (if isActivePhase (newPhase (extract d)) then [ETTTDisplay] else [])
        ++ summaryOf (extract d) (currentPhase st)).
Proof.
  rewrite SSEHandler_obj. cbv zeta. shapes. simpl.
  destruct (phase_is _ _) eqn:Hp, (currentChannel st =? _) eqn:Hc; simpl;
    rewrite ?log_onPhaseChanged, ?app_nil_r;
    try reflexivity;
    destruct (onChannelChanged_stored (extract d) true (storeLatest d st))
      as (_ & -> & _ & _ & -> & _); reflexivity.
Qed.

(** After an object payload the stored pair is the extracted pair. *)
Lemma SSEHandler_stores d st :
  currentChannel (SSEHandler (Some d) st) = ch (extract d)
  /\ currentPhase (SSEHandler (Some d) st) = Some (newPhase (extract d)).
Proof.
  rewrite SSEHandler_obj. cbv zeta. shapes. simpl.
  destruct (phase_is _ _) eqn:Hp, (currentChannel st =? _) eqn:Hc; simpl.
  - apply phase_is_true in Hp. apply Z.eqb_eq in Hc. auto.
  - destruct (onChannelChanged_stored (extract d) false (storeLatest d st))
      as (-> & -> & _). apply phase_is_true in Hp. auto.
  - destruct (onPhaseChanged_stored (extract d) (storeLatest d st))
      as (-> & -> & _). apply Z.eqb_eq in Hc. auto.
  - destruct (onPhaseChanged_stored (extract d)
                (onChannelChanged (extract d) true (storeLatest d st)))
      as (-> & -> & _).
    destruct (onChannelChanged_stored (extract d) true (storeLatest d st))
      as (-> & _). auto.
Qed.

(** A progress event never writes the session store. *)
Lemma SSEHandler_session d st :
  measurementCycle (SSEHandler d st) = measurementCycle st
  /\ dismissedAlerts (SSEHandler d st) = dismissedAlerts st.
Proof.
  destruct d as [d|]; [|split; reflexivity].
  rewrite SSEHandler_obj. cbv zeta. shapes. simpl.
  destruct (phase_is _ _), (currentChannel st =? _); simpl.
  - auto.
  - destruct (onChannelChanged_stored (extract d) false (storeLatest d st))
      as (_ & _ & -> & -> & _). auto.
  - destruct (onPhaseChanged_stored (extract d) (storeLatest d st))
      as (_ & _ & -> & -> & _). auto.
  - destruct (onPhaseChanged_stored (extract d)
                (onChannelChanged (extract d) true (storeLatest d st)))
      as (_ & _ & -> & -> & _).
    destruct (onChannelChanged_stored (extract d) true (storeLatest d st))
      as (_ & _ & -> & -> & _). auto.
Qed.

#[local] Transparent extract onChannelChanged onPhaseChanged.



(** ** Run-summary notifications *)



(** ** Duplicate events *)





#[local] Opaque extract onChannelChanged onPhaseChanged.

(** The state a progress event leads to is a refresh of the circles over a
    state that already holds the event's timer fields. *)
Lemma SSEHandler_decomp d st :
  exists mid,
    SSEHandler (Some d) st = updateCircles (extract d) mid
    /\ latest mid = latest (storeLatest d st).
Proof.
  rewrite SSEHandler_obj. cbv zeta. eexists. split; [reflexivity|].
  destruct (phase_is _ _), (currentChannel st =? _); simpl; try reflexivity.
  - destruct (onPhaseChanged_stored (extract d) (storeLatest d st))
      as (_ & _ & _ & _ & ->). reflexivity.
  - destruct (onPhaseChanged_stored (extract d)
                (onChannelChanged (extract d) true (storeLatest d st)))
      as (_ & _ & _ & _ & ->).
    destruct (onChannelChanged_stored (extract d) true (storeLatest d st))
      as (_ & _ & _ & _ & _ & ->). reflexivity.
Qed.

#[local] Transparent extract onChannelChanged onPhaseChanged.




(** ** Phase extraction *)

(** C3, as stated, fails: a phase string outside the six variants is stored
    as the current phase, not replaced by IDLE. *)
Lemma unrecognized_phase_is_stored :
  existsb (String.eqb "CALIBRATING") PHASES = false
  /\ currentPhase (SSEHandler (Some (phaseOnly "CALIBRATING")) initial)
     = Some "CALIBRATING"
  /\ currentPhase (SSEHandler (Some (phaseOnly "CALIBRATING")) initial)
     <> Some "IDLE".
Proof.
  split; [reflexivity|]. split; [vm_compute; reflexivity|].
  vm_compute. discriminate.
Qed.

(** C3, amended.  After an object payload the stored phase is the payload's
    phase string, whatever it is; only an absent phase is replaced, by
    IDLE. *)
Theorem stored_phase_is_extracted (st : State) (d : Event) :
  currentPhase (SSEHandler (Some d) st) = Some (default "IDLE" (phase d))
  /\ currentPhase (SSEHandler (Some (phaseOnly "CALIBRATING")) st)
     = Some "CALIBRATING"
  /\ currentPhase (SSEHandler (Some emptyEvent) st) = Some "IDLE".
Proof.
  repeat split; apply SSEHandler_stores.
Qed.

(** ** Partial and malformed payloads *)







(** ** Jar colours *)

Lemma set_jars_id st : set_jars (jars st) st = st.
Proof. destruct st; reflexivity. Qed.

Lemma recolor_idle_id j :
  sampling j = false -> paused j = false -> recolor "IDLE" j = j.
Proof. destruct j; simpl; intros -> ->; reflexivity. Qed.

(** Recolouring for IDLE is the identity unless the jar addressed is selected
    and carries the sampling or the paused marker. *)
Lemma updateJarColors_idle_id c st :
  (forall i j, jars st !! i = Some j -> Z.of_nat i = c -> active j = true ->
               sampling j = false /\ paused j = false) ->
  updateJarColors c "IDLE" st = st.
Proof.
  intros H. unfold updateJarColors, jarIndex.
  destruct (_ && _) eqn:Hr; [|reflexivity].
  destruct (jars st !! Z.to_nat c) as [j|] eqn:Hj; [|reflexivity].
  destruct (active j) eqn:Ha; [|reflexivity]. simpl.
  destruct (H _ _ Hj) as [Hs Hp]; [lia|assumption|].
  rewrite recolor_idle_id, list_insert_id by assumption. apply set_jars_id.
Qed.

Example scenarioMid_run : scenarioMid = run scenarioStart scenarioPrefix.
Proof. vm_compute. reflexivity. Qed.

Example scenarioMid_jars :
  jars scenarioMid =
  [ {| active := true; sampling := true; sampled := false; paused := false |};
    {| active := true; sampling := false; sampled := true; paused := false |} ]
  ++ replicate 29 blankJar.
Proof. vm_compute. reflexivity. Qed.

Lemma scenarioMid_idle_id last st :
  last <> 0 -> jars st = jars scenarioMid -> updateJarColors last "IDLE" st = st.
Proof.
  intros Hl Hst. apply updateJarColors_idle_id.
  rewrite Hst, scenarioMid_jars. intros i j Hij Hi Ha.
  destruct i as [|[|i]]; [lia| |].
  - injection Hij as <-. auto.
  - change (replicate 29 blankJar !! i = Some j) in Hij.
    apply lookup_replicate in Hij as [-> _]. discriminate.
Qed.

(** C5, as stated, fails: after the five events the first jar still carries
    the sampling marker and was never marked sampled, whether the closing
    IDLE event carries channel 1 or channel 0. *)
Lemma scenarioA_first_jar_not_sampled :
  jars (run scenarioStart (scenarioA 1)) !! 0%nat
  = Some {| active := true; sampling := true; sampled := false; paused := false |}
  /\ jars (run scenarioStart (scenarioA 0)) !! 0%nat
     = Some {| active := true; sampling := false; sampled := false; paused := false |}.
Proof. split; vm_compute; reflexivity. Qed.

(** C5, amended.  For the event sequence IDLE(0), MEASURING(0), MEASURING(1),
    SWITCHING(1), IDLE(last) with the first two jars selected and two total
    steps, the only summary call is "Measurement Complete" with 2 of 2 steps,
    and that message is the toast on display.  If the closing event carries a
    channel other than 0, the first jar ends with the sampling marker (no
    SWITCHING event ever addressed it), the second jar ends sampled, and the
    other 29 jars are untouched; if it carries channel 0 the markers of all
    jars are cleared. *)
Theorem scenarioA_outcome (last : Z) :
  summaries (run scenarioStart (scenarioA last))
  = [SummaryToast "Measurement Complete" 2 2 "success"]
  /\ toast_message <$> centerToast (run scenarioStart (scenarioA last))
     = Some (summaryText "Measurement Complete" 2 2 "")
  /\ (last <> 0 ->
      jars (run scenarioStart (scenarioA last)) =
      [ {| active := true; sampling := true; sampled := false; paused := false |};
        {| active := true; sampling := false; sampled := true; paused := false |} ]
      ++ replicate 29 blankJar)
  /\ (last = 0 ->
      jars (run scenarioStart (scenarioA last)) = jars scenarioStart).
Proof.
  change (run scenarioStart (scenarioA last))
    with (SSEHandler (Some (progress last "IDLE" 2 2)) scenarioMid).
  rewrite SSEHandler_obj. cbv zeta.
  change (phase_is (currentPhase scenarioMid)
            (newPhase (extract (progress last "IDLE" 2 2)))) with false.
  change (negb false) with true. cbv iota.
  unfold onPhaseChanged, onChannelChanged.
  change (ch (extract (progress last "IDLE" 2 2))) with last.
  change (newPhase (extract (progress last "IDLE" 2 2))) with "IDLE"%string.
  destruct (Z.eqb_spec last 0) as [->|Hl].
  - split_and!; [vm_compute; reflexivity.. | congruence | intros _].
    vm_compute. reflexivity.
  - pose proof (scenarioMid_idle_id last) as Hj.
    destruct (currentChannel scenarioMid =? last); cbn [negb andb];
      rewrite Hj by (assumption || reflexivity);
      (split_and!; [vm_compute; reflexivity.. | intros _ | congruence]);
      vm_compute; reflexivity.
Qed.

Lemma scenarioA_outcome_witness :
  1 <> 0
  /\ jars (run scenarioStart (scenarioA 1)) !! 1%nat
     = Some {| active := true; sampling := false; sampled := true; paused := false |}.
Proof.
  split; [discriminate|].
  destruct (scenarioA_outcome 1) as (_ & _ & H & _).
  rewrite H by discriminate. reflexivity.
Defined.

Lemma active_recolor p j : active (recolor p j) = active j.
Proof. unfold recolor. repeat case_match; reflexivity. Qed.

(** [updateJarColors] returns at once on an unselected jar: whatever the
    phase, the jars that are not selected stay as they are. *)
Lemma updateJarColors_unselected c p st i j :
  jars st !! i = Some j -> active j = false ->
  jars (updateJarColors c p st) !! i = Some j.
Proof.
  intros Hj Ha. unfold updateJarColors.
  destruct (jarIndex c (jars st)) as [n|]; [|assumption].
  destruct (jars st !! n) as [j'|] eqn:Hn; [|assumption].
  destruct (active j') eqn:Ha'; [|assumption]. simpl.
  destruct (decide (n = i)) as [->|Hne].
  - congruence.
  - rewrite list_lookup_insert_ne by assumption. assumption.
Qed.

Lemma updateJarColors_unmarked c p st :
  unselected_unmarked (jars st) ->
  unselected_unmarked (jars (updateJarColors c p st)).
Proof.
  intros H. unfold updateJarColors.
  destruct (jarIndex c (jars st)) as [n|]; [|assumption].
  destruct (jars st !! n) as [j|] eqn:Hn; [|assumption].
  destruct (active j) eqn:Ha; [|assumption]. simpl.
  apply Forall_insert; [assumption|].
  rewrite active_recolor, Ha. discriminate.
Qed.

Lemma resetJarStates_unmarked st :
  unselected_unmarked (jars st) ->
  unselected_unmarked (jars (resetJarStates st)).
Proof.
  unfold unselected_unmarked, resetJarStates. simpl. intros H.
  apply Forall_fmap. eapply Forall_impl; [exact H|].
  intros [a s d p] Hj Ha. simpl in *. specialize (Hj Ha).
  unfold marked in *. simpl in *. destruct s, p; simpl in *; congruence.
Qed.

Lemma jars_onPhaseChanged f st :
  jars (onPhaseChanged f st) = jars (updateJarColors (ch f) (newPhase f) st).
Proof.
  assert (forall s, jars s = jars st ->
            jars (updateJarColors (ch f) (newPhase f) s)
            = jars (updateJarColors (ch f) (newPhase f) st)) as Hsame.
  { intros s Hs. unfold updateJarColors. rewrite Hs.
    repeat case_match; simpl; congruence. }
  unfold onPhaseChanged, notifySummary, showMeasurementSummaryToast, emit.
  destruct (applyPhase_shape (newPhase f) st) as (t & l & c & b & a & ->).
  rewrite <- (Hsame (set_btnAbort a (set_btnStart b (set_countdown c
                (set_countdownTimer t (set_intervalLive l st))))) eq_refl).
  remember (updateJarColors _ _ _) as colored eqn:Hcolored. clear Hcolored.
  shapes.
  destruct (isActivePhase _), (String.eqb (newPhase f) "ABORTED"); simpl.
  all: shapes; simpl.
  all: try destruct (phase_is _ _ && _); shapes; reflexivity.
Qed.

Lemma onChannelChanged_unmarked f pc st :
  unselected_unmarked (jars st) ->
  unselected_unmarked (jars (onChannelChanged f pc st)).
Proof.
  intros H. unfold onChannelChanged.
  destruct (pc && _); [apply resetJarStates_unmarked|]; assumption.
Qed.

#[local] Opaque extract onChannelChanged onPhaseChanged.

(** Progress events alone never leave a marker on an unselected jar. *)
Lemma SSEHandler_unmarked d st :
  unselected_unmarked (jars st) ->
  unselected_unmarked (jars (SSEHandler d st)).
Proof.
  intros H. destruct d as [d|]; [|assumption].
  rewrite SSEHandler_obj. cbv zeta. shapes. simpl.
  destruct (phase_is _ _), (currentChannel st =? _); simpl;
    rewrite ?jars_onPhaseChanged; try apply updateJarColors_unmarked;
    try apply onChannelChanged_unmarked; assumption.
Qed.

#[local] Transparent extract onChannelChanged onPhaseChanged.

(** C6 fails on the code.  A selected jar marked paused keeps the marker when
    the user deselects it after the run (the click listener clears the sampled
    and the sampling class, not the paused one); and the "None" button, which
    is not guarded by the running flag, deselects a jar while it is marked
    sampling. *)
Theorem deselected_jar_keeps_marker :
  jars (run initial [ JarClick 0;
                      SSE (Some (progress 0 "PAUSED" 0 1));
                      SSE (Some (progress 1 "IDLE" 1 1));
                      JarClick 0 ]) !! 0%nat
  = Some {| active := false; sampling := false; sampled := false; paused := true |}
  /\ jars (run initial [ JarClick 0;
                         SSE (Some (progress 0 "MEASURING" 0 1));
                         NoneClick ]) !! 0%nat
     = Some {| active := false; sampling := true; sampled := false; paused := false |}.
Proof. split; vm_compute; reflexivity. Qed.

(** ** Alert dismissal *)

Lemma toString_nonempty z : JS.toString z <> "".
Proof.
  intros H. pose proof (parseInt_toString z) as P. rewrite H in P. discriminate.
Qed.

Lemma str_or_toString z d : JS.str_or (Some (JS.toString z)) d = JS.toString z.
Proof.
  pose proof (toString_nonempty z). unfold JS.str_or.
  destruct (JS.toString z); [contradiction|reflexivity].
Qed.

Lemma showAlert_dismissed message type st :
  dismissedAlerts st !! dismissKeyOf st type message = Some true ->
  showAlert message type st = st.
Proof. intros H. unfold showAlert. fold (dismissKeyOf st type message). now rewrite H. Qed.

Lemma showAlert_shown message type st :
  dismissedAlerts st !! dismissKeyOf st type message <> Some true ->
  showAlert message type st =
  set_centerToast
    (Some {| toast_type := type; toast_message := message;
             toast_html := JS.includes "<" message;
             toast_dismissed := dismissedAlerts st;
             toast_dismissKey := dismissKeyOf st type message |}) st.
Proof.
  intros H. unfold showAlert. fold (dismissKeyOf st type message).
  destruct (dismissedAlerts st !! dismissKeyOf st type message) as [[]|];
    [contradiction|reflexivity..].
Qed.


Lemma startMeasurement_session st n :
  runId st = Some n ->
  measurementCycle (startMeasurement st) = Some (JS.toString (n + 1))
  /\ dismissedAlerts (startMeasurement st) = dismissedAlerts st.
Proof.
  unfold runId, startMeasurement, emit. simpl. intros ->. split; reflexivity.
Qed.



(** ** Progress circles *)

(** The clamped percentage is a finite number between 0 and 100. *)
Lemma clamp_bounds x :
  exists q, clamp x = JS.Fin q /\ (0 <= q)%Q /\ (q <= 100)%Q.
Proof.
  unfold clamp. destruct x as [| |q|]; simpl.
  - exists 0%Q. repeat split; discriminate.
  - exists 0%Q. repeat split; discriminate.
  - destruct (Qeq_bool q 0); simpl.
    + exists 0%Q. repeat split; discriminate.
    + destruct (Qle_bool q 100) eqn:H100; simpl.
      * destruct (Qle_bool 0 q) eqn:H0.
        -- exists q. repeat split; apply Qle_bool_iff; assumption.
        -- exists 0%Q. repeat split; discriminate.
      * exists 100%Q. repeat split; discriminate.
  - exists 100%Q. repeat split; discriminate.
Qed.

(** The bucket is decided by the three thresholds 25, 50 and 75. *)
Lemma colorRange_quartile q :
  colorRange (JS.Fin q) =
  if Qle_bool q 25 then "0-25"
  else if Qle_bool q 50 then "26-50"
  else if Qle_bool q 75 then "51-75"
  else "76-100".
Proof. reflexivity. Qed.

(** With a positive total the repeat circle shows the clamped quotient. *)
Lemma updateRepeatInfo_positive_total rep total st :
  0 < total ->
  stroke_pct (repeatCircle (updateRepeatInfo rep total st))
  = clamp (JS.Fin (Qred (Qred (inject_Z rep / inject_Z total) * 100))).
Proof.
  intros H. unfold updateRepeatInfo, zor0, JS.div. simpl.
  destruct (Z.eqb_spec total 0) as [E|E]; [lia|].
  destruct (Z.eqb_spec total 0) as [E'|_]; [lia|]. reflexivity.
Qed.

(** With a zero total and nothing counted the repeat circle shows 0. *)
Lemma updateRepeatInfo_zero_total_nonpositive rep st :
  rep <= 0 ->
  stroke_pct (repeatCircle (updateRepeatInfo rep 0 st)) = JS.Fin 0.
Proof.
  intros H. unfold updateRepeatInfo, zor0, JS.div. simpl.
  destruct (Z.ltb_spec 0 rep); [lia|].
  destruct (Z.ltb_spec rep 0); reflexivity.
Qed.

(** With a zero total and a positive count the quotient is [Infinity], which
    [|| 0] lets through and the clamp turns into 100. *)
Lemma updateRepeatInfo_zero_total_positive rep st :
  0 < rep ->
  stroke_pct (repeatCircle (updateRepeatInfo rep 0 st)) = JS.Fin 100
  /\ data_pct (repeatCircle (updateRepeatInfo rep 0 st)) = "76-100".
Proof.
  intros H. unfold updateRepeatInfo, zor0, JS.div. simpl.
  destruct (Z.ltb_spec 0 rep); [|lia]. split; reflexivity.
Qed.

(** C8 fails on the code.  A progress event with repeat index 1 and no repeat
    total divides by zero in [updateRepeatInfo]; the repeat circle then shows
    100 percent in the bucket 76-100 with the label 1/0, not 0 percent. *)
Theorem repeat_circle_division_by_zero :
  repeat_total (repeatOnly 1) = None
  /\ repeatCircle (SSEHandler (Some (repeatOnly 1)) initial)
     = {| stroke_pct := JS.Fin 100; label := "1/0"; data_pct := "76-100" |}
  /\ repeatCircle (updateRepeatInfo 1 0 initial)
     = {| stroke_pct := JS.Fin 100; label := "1/0"; data_pct := "76-100" |}.
Proof. split_and!; vm_compute; reflexivity. Qed.

(** ** Start countdown *)

Lemma run_app st l1 l2 : run st (l1 ++ l2) = run (run st l1) l2.
Proof. apply foldl_app. Qed.

Lemma run_cons st i l : run st (i :: l) = run (step st i) l.
Proof. reflexivity. Qed.

Lemma startRequests_emit_start body st :
  startRequests (emit (StartRequest body) st) = S (startRequests st).
Proof.
  unfold startRequests, emit. simpl. rewrite filter_app, length_app.
  simpl. lia.
Qed.

(** A cleared interval does not fire. *)
Lemma ticks_when_cleared st m :
  intervalLive st = false -> run st (replicate m TimerTick) = st.
Proof.
  intros H. induction m as [|m IH]; [reflexivity|].
  change (run (countdownTick st) (replicate m TimerTick) = st).
  assert (countdownTick st = st) as -> by (unfold countdownTick; now rewrite H).
  exact IH.
Qed.

Lemma click_starts_countdown st :
  controllerIdle st ->
  counting START_DELAY (btnStartClick st) /\ log (btnStartClick st) = log st.
Proof.
  intros (Hr & Ht & Hl). unfold btnStartClick, counting. rewrite Hr. simpl.
  rewrite Ht. simpl. rewrite Hr. repeat split; reflexivity.
Qed.

Lemma tick_counts_down c st :
  counting c st -> 1 < c ->
  counting (c - 1) (countdownTick st) /\ log (countdownTick st) = log st.
Proof.
  intros (Hr & Ht & Hl & Hc) Hgt. unfold countdownTick, counting.
  rewrite Hl, Hr. simpl. rewrite Hc.
  destruct (Z.leb_spec (c - 1) 0); [lia|]. simpl.
  repeat split; assumption.
Qed.

Lemma tick_expires st :
  counting 1 st ->
  startRequests (countdownTick st) = S (startRequests st)
  /\ countdownTimer (countdownTick st) = false
  /\ intervalLive (countdownTick st) = false.
Proof.
  intros (Hr & Ht & Hl & Hc). unfold countdownTick.
  rewrite Hl, Hr. simpl. rewrite Hc. simpl.
  unfold startMeasurement. rewrite startRequests_emit_start.
  repeat split; reflexivity.
Qed.

Lemma click_cancels_countdown c st :
  counting c st ->
  log (btnStartClick st) = log st
  /\ measurementCycle (btnStartClick st) = measurementCycle st
  /\ countdownTimer (btnStartClick st) = false
  /\ intervalLive (btnStartClick st) = false
  /\ countdown (btnStartClick st) = START_DELAY
  /\ textContent (btnStart (btnStartClick st)) = "Start Measurement".
Proof.
  intros (Hr & Ht & Hl & Hc). unfold btnStartClick.
  rewrite Hr. simpl. rewrite Ht. unfold warning_to_success.
  destruct (btn_warning _); repeat split; reflexivity.
Qed.

Lemma ticks_count_down (k : nat) c st :
  counting c st -> Z.of_nat k < c ->
  counting (c - Z.of_nat k) (run st (replicate k TimerTick))
  /\ log (run st (replicate k TimerTick)) = log st.
Proof.
  revert c st. induction k as [|k IH]; intros c st Hcnt Hk.
  - change (run st (replicate 0 TimerTick)) with st.
    replace (c - Z.of_nat 0) with c by lia. split; [assumption|reflexivity].
  - change (replicate (S k) TimerTick) with (TimerTick :: replicate k TimerTick).
    rewrite run_cons. cbn [step].
    destruct (tick_counts_down c st Hcnt) as [Hcnt' Hlog]; [lia|].
    destruct (IH (c - 1) (countdownTick st) Hcnt') as [Hcnt'' Hlog']; [lia|].
    replace (c - Z.of_nat (S k)) with (c - 1 - Z.of_nat k) by lia.
    split; [assumption|congruence].
Qed.

(** C9. From an idle controller a start click begins a countdown of five
    ticks.  A second click after fewer than five ticks cancels it: however
    many ticks follow, no start request is issued, the timer handle is null,
    the countdown is back at five and the button reads "Start Measurement".
    Without a second click no request is issued before the fifth tick, and
    from the fifth tick on exactly one request has been issued, however many
    ticks follow. *)
Theorem countdown_cycle (st : State) :
  controllerIdle st ->
  (forall k m : nat, (k < 5)%nat ->
     startRequests
       (run st (StartClick :: replicate k TimerTick
                ++ StartClick :: replicate m TimerTick))
     = startRequests st
     /\ countdownTimer
          (run st (StartClick :: replicate k TimerTick
                   ++ StartClick :: replicate m TimerTick)) = false
     /\ intervalLive
          (run st (StartClick :: replicate k TimerTick
                   ++ StartClick :: replicate m TimerTick)) = false
     /\ countdown
          (run st (StartClick :: replicate k TimerTick
                   ++ StartClick :: replicate m TimerTick)) = START_DELAY
     /\ textContent
          (btnStart
             (run st (StartClick :: replicate k TimerTick
                      ++ StartClick :: replicate m TimerTick)))
        = "Start Measurement")
  /\ (forall k : nat, (k < 5)%nat ->
        startRequests (run st (StartClick :: replicate k TimerTick))
        = startRequests st)
  /\ (forall m : nat,
        startRequests
          (run st (StartClick :: replicate 5 TimerTick ++ replicate m TimerTick))
        = S (startRequests st)).
Proof.
  intros Hidle.
  destruct (click_starts_countdown st Hidle) as [Hcnt Hlog].
  split; [|split].
  - intros k m Hk.
    rewrite run_cons, run_app. cbn [step].
    destruct (ticks_count_down k START_DELAY (btnStartClick st) Hcnt)
      as [Hcnt' Hlog']; [unfold START_DELAY; lia|].
    set (ticked := run (btnStartClick st) (replicate k TimerTick)) in *.
    rewrite run_cons. cbn [step].
    destruct (click_cancels_countdown _ ticked Hcnt')
      as (Hl & _ & Ht & Hi & Hc & Hx).
    rewrite ticks_when_cleared by assumption.
    split_and!; try assumption.
    unfold startRequests. congruence.
  - intros k Hk.
    rewrite run_cons. cbn [step].
    destruct (ticks_count_down k START_DELAY (btnStartClick st) Hcnt)
      as [_ Hlog']; [unfold START_DELAY; lia|].
    unfold startRequests. congruence.
  - intros m.
    change (replicate 5 TimerTick) with (replicate 4 TimerTick ++ [TimerTick]).
    rewrite run_cons, !run_app, run_cons. cbn [step].
    change (run ?s []) with s.
    destruct (ticks_count_down 4 START_DELAY (btnStartClick st) Hcnt)
      as [Hcnt' Hlog']; [unfold START_DELAY; lia|].
    destruct (tick_expires _ Hcnt') as (Hreq & Ht & Hi).
    rewrite ticks_when_cleared by assumption.
    rewrite Hreq. unfold startRequests. congruence.
Qed.

Lemma countdown_cycle_witness :
  controllerIdle initial
  /\ startRequests (run initial [StartClick; TimerTick; TimerTick; StartClick;
                                 TimerTick; TimerTick; TimerTick; TimerTick])
     = 0%nat
  /\ startRequests (run initial [StartClick; TimerTick; TimerTick; TimerTick;
                                 TimerTick; TimerTick; TimerTick])
     = 1%nat.
Proof.
  assert (controllerIdle initial) as Hidle by (repeat split).
  split; [exact Hidle|].
  destruct (countdown_cycle initial Hidle) as (Hcancel & _ & Hexpire).
  split.
  - exact (proj1 (Hcancel 2%nat 4%nat ltac:(lia))).
  - exact (Hexpire 1%nat).
Defined.

(** ** Run identifier *)

Lemma startRequests_emit e st :
  is_start e = false -> startRequests (emit e st) = startRequests st.
Proof.
  intros H. unfold startRequests, emit. simpl. rewrite filter_app, length_app.
  destruct e; try discriminate H; simpl; lia.
Qed.

Lemma startRequests_SSEHandler d st :
  startRequests (SSEHandler d st) = startRequests st.
Proof.
  destruct d as [d|]; [|apply startRequests_emit; reflexivity].
  unfold startRequests. rewrite log_SSEHandler, filter_app, length_app.
  destruct (phase_is _ _); [simpl; lia|].
  unfold summaryOf.
  destruct (isActivePhase _); repeat case_match; simpl; lia.
Qed.

Lemma runId_startMeasurement st n :
  runId st = Some n -> runId (startMeasurement st) = Some (n + 1).
Proof.
  intros H. destruct (startMeasurement_session st n H) as [Hc _].
  unfold runId. rewrite Hc, str_or_toString. apply parseInt_toString.
Qed.

Lemma startRequests_startMeasurement st :
  startRequests (startMeasurement st) = S (startRequests st).
Proof.
  unfold startMeasurement. rewrite startRequests_emit_start. reflexivity.
Qed.

(** One handler run adds at most one start request, and the run identifier
    moves by exactly as much. *)
Lemma step_run_id st i n :
  runId st = Some n ->
  exists k : nat,
    runId (step st i) = Some (n + Z.of_nat k)
    /\ startRequests (step st i) = (startRequests st + k)%nat.
Proof.
  intros Hn.
  assert (forall st', measurementCycle st' = measurementCycle st ->
            runId st' = Some (n + Z.of_nat 0)) as Hsame.
  { intros st' E. unfold runId. rewrite E. fold (runId st).
    rewrite Hn. f_equal. lia. }
  assert (forall st', log st' = log st ->
            startRequests st' = (startRequests st + 0)%nat) as Hlog.
  { intros st' E. unfold startRequests. rewrite E. lia. }
  destruct i as [d| | |r| |r|j| | | |p|]; simpl.
  - exists 0%nat. split.
    + apply Hsame, SSEHandler_session.
    + rewrite startRequests_SSEHandler. lia.
  - exists 0%nat. unfold btnStartClick, warning_to_success, success_to_warning.
    repeat case_match; split; first [apply Hsame | apply Hlog]; reflexivity.
  - unfold countdownTick.
    destruct (intervalLive st); simpl; [|exists 0%nat; auto].
    destruct (isMeasurementRunning st); simpl; [exists 0%nat; auto|].
    destruct (_ <=? 0); [|exists 0%nat; auto].
    exists 1%nat. split.
    + apply runId_startMeasurement. unfold runId. simpl. exact Hn.
    + rewrite startRequests_startMeasurement. unfold startRequests. simpl. lia.
  - exists 0%nat. destruct r as [[] m|e]; simpl;
      rewrite ?startRequests_emit by reflexivity; split; auto; lia.
  - exists 0%nat. unfold abortConfirmed.
    rewrite startRequests_emit by reflexivity. split; auto; lia.
  - exists 0%nat. destruct r as [[] m|e]; simpl;
      rewrite ?startRequests_emit by reflexivity; split; auto; lia.
  - exists 0%nat. unfold jarClick. case_match; auto.
  - exists 0%nat. auto.
  - exists 0%nat. auto.
  - exists 0%nat. auto.
  - exists 0%nat. auto.
  - exists 0%nat. unfold dismissToast. case_match; auto.
Qed.

(** C10, as stated, fails: the counter is advanced when the start request is
    issued, and stays advanced when the backend refuses the start or the
    request fails. *)
Lemma refused_start_still_counts :
  runId initial = Some 0
  /\ runId (run initial [ StartClick; TimerTick; TimerTick; TimerTick;
                          TimerTick; TimerTick;
                          StartSettled (Json false "busy") ]) = Some 1
  /\ runId (run initial [ StartClick; TimerTick; TimerTick; TimerTick;
                          TimerTick; TimerTick;
                          StartSettled (Rejected "NetworkError") ]) = Some 1.
Proof. split_and!; vm_compute; reflexivity. Qed.

(** C10, amended.  The run identifier advances by one with every start
    request issued, that is with every countdown that expires, whatever the
    backend later answers; no other handler writes it.  Over any sequence of
    inputs it therefore never decreases and grows by exactly the number of
    start requests issued. *)
Theorem run_id_counts_start_requests (st : State) (n : Z) (inputs : list Input) :
  runId st = Some n ->
  runId (run st inputs)
  = Some (n + Z.of_nat (startRequests (run st inputs) - startRequests st))
  /\ (startRequests st <= startRequests (run st inputs))%nat
  /\ runId (startMeasurement st) = Some (n + 1)
  /\ (forall r : Response, runId (startSettled r st) = Some n).
Proof.
  intros Hn.
  assert (runId (run st inputs)
          = Some (n + Z.of_nat (startRequests (run st inputs) - startRequests st))
          /\ (startRequests st <= startRequests (run st inputs))%nat) as Hrun.
  { revert st n Hn. induction inputs as [|i inputs IH]; intros st n Hn.
    - change (run st []) with st. rewrite Nat.sub_diag.
      split; [rewrite Hn; f_equal; lia|lia].
    - rewrite run_cons.
      destruct (step_run_id st i n Hn) as (k & Hid & Hreq).
      destruct (IH (step st i) _ Hid) as [Hid' Hle].
      split; [|lia]. rewrite Hid'. f_equal. lia. }
  destruct Hrun as [Hid Hle].
  split_and!; try assumption.
  - apply runId_startMeasurement. assumption.
  - intros r. rewrite <- Hn. unfold runId. destruct r as [[] m|e]; reflexivity.
Qed.

Lemma run_id_counts_start_requests_witness :
  runId initial = Some 0
  /\ runId (run initial [ StartClick; TimerTick; TimerTick; TimerTick;
                          TimerTick; TimerTick ]) = Some 1.
Proof.
  split; [reflexivity|].
  exact (proj1 (run_id_counts_start_requests initial 0
                  [ StartClick; TimerTick; TimerTick; TimerTick;
                    TimerTick; TimerTick ] eq_refl)).
Defined.

(** * Further properties of the jar grid *)

(** ** Selection mask *)

Lemma jar_active_id j : jar_active (active j) j = j.
Proof. destruct j; reflexivity. Qed.

Lemma lookup_applyJarMask mask st i :
  jars (applyJarMask mask st) !! i
  = jar_active (default false (mask !! i)) <$> jars st !! i.
Proof. unfold applyJarMask. simpl. now rewrite list_lookup_imap. Qed.

Lemma getJarMask_applyJarMask_lookup mask st (i : nat) :
  (i < length (jars st))%nat ->
  getJarMask (applyJarMask mask st) !! i = Some (default false (mask !! i)).
Proof.
  intros Hi. unfold getJarMask.
  rewrite list_lookup_fmap, lookup_applyJarMask.
  destruct (lookup_lt_is_Some_2 (jars st) i Hi) as [j ->]. reflexivity.
Qed.

Lemma length_applyJarMask mask st :
  length (getJarMask (applyJarMask mask st)) = length (jars st).
Proof.
  unfold getJarMask, applyJarMask. simpl. now rewrite length_fmap, length_imap.
Qed.

Lemma getJarMask_applyJarMask mask st :
  length mask = length (jars st) -> getJarMask (applyJarMask mask st) = mask.
Proof.
  intros Hm. apply list_eq. intros i.
  destruct (decide (i < length (jars st))%nat) as [Hi|Hi].
  - rewrite getJarMask_applyJarMask_lookup by assumption.
    destruct (lookup_lt_is_Some_2 mask i) as [b ->]; [lia|reflexivity].
  - rewrite !lookup_ge_None_2; [reflexivity|lia|].
    rewrite length_applyJarMask. lia.
Qed.

(** X1. Reading the mask back after [applyJarMask] gives, jar by jar, the
    truthiness of the mask entry (false beyond the end of the mask); a mask as
    long as the grid is read back unchanged, and applying the mask just read
    changes nothing. *)
Theorem applyJarMask_getJarMask (st : State) (mask : list bool) :
  length (getJarMask (applyJarMask mask st)) = length (jars st)
  /\ (forall i : nat, (i < length (jars st))%nat ->
        getJarMask (applyJarMask mask st) !! i = Some (default false (mask !! i)))
  /\ (length mask = length (jars st) ->
        getJarMask (applyJarMask mask st) = mask)
  /\ applyJarMask (getJarMask st) st = st.
Proof.
  split_and!.
  - apply length_applyJarMask.
  - apply getJarMask_applyJarMask_lookup.
  - apply getJarMask_applyJarMask.
  - unfold applyJarMask.
    assert (imap (fun i j => jar_active (default false (getJarMask st !! i)) j)
              (jars st) = jars st) as ->; [|apply set_jars_id].
    apply list_eq. intros i. rewrite list_lookup_imap.
    unfold getJarMask. rewrite list_lookup_fmap.
    destruct (jars st !! i) as [j|]; [|reflexivity]. simpl.
    now rewrite jar_active_id.
Qed.

Lemma applyJarMask_getJarMask_witness :
  length scenarioMask = length (jars initial)
  /\ getJarMask (applyJarMask scenarioMask initial) = scenarioMask.
Proof.
  split; [reflexivity|].
  apply (applyJarMask_getJarMask initial scenarioMask). reflexivity.
Defined.

Lemma set_jars_twice v w st : set_jars v (set_jars w st) = set_jars v st.
Proof. destruct st; reflexivity. Qed.

Lemma invertJars_twice st : invertJars (invertJars st) = st.
Proof.
  unfold invertJars. simpl. rewrite set_jars_twice.
  assert (forall l : list Jar,
            (fun j => jar_active (negb (active j)) j)
              <$> ((fun j => jar_active (negb (active j)) j) <$> l) = l) as ->.
  { induction l as [|j l IH]; [reflexivity|].
    rewrite !fmap_cons, IH. destruct j as [[] ? ? ?]; reflexivity. }
  apply set_jars_id.
Qed.

Lemma getJarMask_setAllJars b st :
  getJarMask (setAllJars b st) = replicate (length (jars st)) b.
Proof.
  unfold getJarMask, setAllJars. simpl. rewrite <- list_fmap_compose.
  induction (jars st) as [|j l IH]; [reflexivity|].
  rewrite fmap_cons, IH. reflexivity.
Qed.

Lemma applyJarMask_nil st : applyJarMask [] st = setAllJars false st.
Proof.
  unfold applyJarMask, setAllJars. f_equal.
  apply list_eq. intros i. rewrite list_lookup_imap, list_lookup_fmap.
  destruct (jars st !! i); reflexivity.
Qed.

(** X2. Inverting the selection twice restores the page; invert, select all
    and select none write only the selection flag (the mask read back is the
    negated mask, respectively constant), never a marker; applying an empty
    mask is select none. *)
Theorem selection_buttons (st : State) (b : bool) :
  invertJars (invertJars st) = st
  /\ getJarMask (invertJars st) = negb <$> getJarMask st
  /\ getJarMask (setAllJars b st) = replicate (length (jars st)) b
  /\ applyJarMask [] st = setAllJars false st
  /\ marked <$> jars (invertJars st) = marked <$> jars st
  /\ marked <$> jars (setAllJars b st) = marked <$> jars st.
Proof.
  split_and!.
  - apply invertJars_twice.
  - unfold getJarMask, invertJars. simpl. rewrite <- !list_fmap_compose.
    apply list_fmap_ext. intros _ [a s d p] _. reflexivity.
  - apply getJarMask_setAllJars.
  - apply applyJarMask_nil.
  - unfold invertJars. simpl. rewrite <- list_fmap_compose.
    apply list_fmap_ext. intros _ [a s d p] _. reflexivity.
  - unfold setAllJars. simpl. rewrite <- list_fmap_compose.
    apply list_fmap_ext. intros _ [a s d p] _. reflexivity.
Qed.

Lemma lastEnabledBelow_Some n mask i :
  lastEnabledBelow n mask = Some i <->
  (i < n)%nat /\ default false (mask !! i) = true
  /\ forall j : nat, (i < j < n)%nat -> default false (mask !! j) = false.
Proof.
  induction n as [|n IH]; simpl.
  - split; [discriminate|]. intros [H _]. lia.
  - destruct (default false (mask !! n)) eqn:Hn.
    + split.
      * intros [= <-]. split_and!; [lia|assumption|]. intros j Hj. lia.
      * intros (Hi & Ht & Hlast). f_equal.
        destruct (decide (i = n)) as [->|Hne]; [reflexivity|].
        rewrite (Hlast n) in Hn by lia. discriminate.
    + rewrite IH. split.
      * intros (Hi & Ht & Hlast). split_and!; [lia|assumption|].
        intros j Hj. destruct (decide (j = n)) as [->|Hne]; [assumption|].
        apply Hlast. lia.
      * intros (Hi & Ht & Hlast).
        assert (i <> n) by (intros ->; congruence).
        split_and!; [lia|assumption|]. intros j Hj. apply Hlast. lia.
Qed.

Lemma lastEnabledBelow_None n mask :
  lastEnabledBelow n mask = None <->
  forall j : nat, (j < n)%nat -> default false (mask !! j) = false.
Proof.
  induction n as [|n IH]; simpl.
  - split; [intros _ j Hj; lia|reflexivity].
  - destruct (default false (mask !! n)) eqn:Hn.
    + split; [discriminate|]. intros H. rewrite H in Hn by lia. discriminate.
    + rewrite IH. split.
      * intros H j Hj. destruct (decide (j = n)) as [->|Hne]; [assumption|].
        apply H. lia.
      * intros H j Hj. apply H. lia.
Qed.

Lemma default_lookup_true (mask : list bool) i :
  default false (mask !! i) = true <-> mask !! i = Some true.
Proof. destruct (mask !! i) as [[]|]; simpl; split; congruence. Qed.

(** X3. [getLastEnabledJar] answers the index of the last selected jar; with
    no jar selected it answers 30, the last jar of the grid.  The answer is
    always a valid 0-based index. *)
Theorem getLastEnabledJar_spec (st : State) :
  ((forall i : nat, getJarMask st !! i <> Some true) ->
     getLastEnabledJar st = 30)
  /\ (forall i : nat,
        getJarMask st !! i = Some true ->
        (forall j : nat, (i < j)%nat -> getJarMask st !! j <> Some true) ->
        getLastEnabledJar st = Z.of_nat i)
  /\ (0 <= getLastEnabledJar st < Z.max 31 (Z.of_nat (length (jars st)))).
Proof.
  unfold getLastEnabledJar. cbv zeta. split; [|split].
  - intros Hnone.
    assert (lastEnabledBelow (length (getJarMask st)) (getJarMask st) = None) as ->.
    { apply lastEnabledBelow_None. intros j _.
      destruct (default false (getJarMask st !! j)) eqn:E; [|reflexivity].
      apply default_lookup_true in E. destruct (Hnone j E). }
    reflexivity.
  - intros i Hi Hlast.
    assert (lastEnabledBelow (length (getJarMask st)) (getJarMask st) = Some i) as ->.
    { apply lastEnabledBelow_Some. split_and!.
      - apply lookup_lt_Some in Hi. exact Hi.
      - apply default_lookup_true. exact Hi.
      - intros j Hj.
        destruct (default false (getJarMask st !! j)) eqn:E; [|reflexivity].
        apply default_lookup_true in E. destruct (Hlast j); [lia|assumption]. }
    reflexivity.
  - destruct (lastEnabledBelow _ _) as [i|] eqn:E.
    + apply lastEnabledBelow_Some in E as (Hi & _).
      unfold getJarMask in Hi. rewrite length_fmap in Hi. lia.
    + unfold TOTAL_JARS. lia.
Qed.

Lemma getLastEnabledJar_spec_witness :
  getJarMask scenarioStart !! 1%nat = Some true
  /\ (forall j : nat, (1 < j)%nat -> getJarMask scenarioStart !! j <> Some true)
  /\ getLastEnabledJar scenarioStart = 1
  /\ getLastEnabledJar initial = 30.
Proof.
  assert (forall j : nat, (1 < j)%nat -> getJarMask scenarioStart !! j <> Some true)
    as Hlast.
  { intros [|[|j]] Hj; [lia..|].
    change (replicate 29 false !! j <> Some true).
    intros H. apply lookup_replicate in H as [H _]. discriminate. }
  split; [reflexivity|]. split; [exact Hlast|]. split.
  - exact (proj1 (proj2 (getLastEnabledJar_spec scenarioStart)) 1%nat eq_refl Hlast).
  - apply (getLastEnabledJar_spec initial). intros i H.
    change (replicate 31 false !! i = Some true) in H.
    apply lookup_replicate in H as [H _]. discriminate.
Defined.

Lemma jars_set_jars v st : jars (set_jars v st) = v.
Proof. reflexivity. Qed.

Lemma getSelectedJars_elem st id :
  id ∈ getSelectedJars st <->
  exists i : nat, id = Z.of_nat i + 1 /\ getJarMask st !! i = Some true.
Proof.
  unfold getSelectedJars, getJarMask. rewrite list_elem_of_fmap. split.
  - intros ([i j] & -> & Hin). apply list_elem_of_filter in Hin as [Ha Hin].
    apply elem_of_lookup_imap in Hin as (i' & j' & [= -> ->] & Hl).
    exists i'. split; [reflexivity|]. rewrite list_lookup_fmap, Hl. simpl in *.
    now rewrite Ha.
  - intros (i & -> & Hm). rewrite list_lookup_fmap in Hm.
    destruct (jars st !! i) as [j|] eqn:Hl; [|discriminate]. injection Hm as Ha.
    exists (i, j). split; [reflexivity|]. apply list_elem_of_filter. split; [exact Ha|].
    apply elem_of_lookup_imap. eauto.
Qed.

Lemma getSelectedJars_snoc l j st :
  getSelectedJars (set_jars (l ++ [j]) st)
  = getSelectedJars (set_jars l st)
    ++ (if active j then [Z.of_nat (length l) + 1] else []).
Proof.
  unfold getSelectedJars. rewrite !jars_set_jars, imap_app, filter_app, fmap_app.
  f_equal. simpl. rewrite Nat.add_0_r.
  destruct (active j) eqn:Ha.
  - rewrite filter_cons_True by exact Ha. reflexivity.
  - rewrite filter_cons_False by (simpl; congruence). reflexivity.
Qed.

Lemma lastEnabledBelow_app n (mask extra : list bool) :
  (n <= length mask)%nat ->
  lastEnabledBelow n (mask ++ extra) = lastEnabledBelow n mask.
Proof.
  induction n as [|n IH]; intros Hn; [reflexivity|]. simpl.
  rewrite lookup_app_l by lia. rewrite IH by lia. reflexivity.
Qed.

Lemma getLastEnabledJar_snoc l j st :
  getLastEnabledJar (set_jars (l ++ [j]) st)
  = if active j then Z.of_nat (length l)
    else match lastEnabledBelow (length l) (active <$> l) with
         | Some i => Z.of_nat i
         | None => Z.of_nat TOTAL_JARS - 1
         end.
Proof.
  unfold getLastEnabledJar, getJarMask. cbv zeta.
  rewrite jars_set_jars, fmap_app, length_app, !length_fmap. simpl.
  rewrite Nat.add_1_r. simpl.
  rewrite lookup_app_r by (rewrite length_fmap; lia).
  rewrite length_fmap, Nat.sub_diag. simpl.
  destruct (active j); [reflexivity|].
  rewrite lastEnabledBelow_app by (rewrite length_fmap; lia). reflexivity.
Qed.

Lemma last_selected_list l st :
  getSelectedJars (set_jars l st) <> [] ->
  last (getSelectedJars (set_jars l st))
  = Some (getLastEnabledJar (set_jars l st) + 1).
Proof.
  induction l as [|j l IH] using rev_ind; [intros H; now destruct H|].
  rewrite getSelectedJars_snoc, getLastEnabledJar_snoc.
  destruct (active j).
  - intros _. apply last_snoc.
  - rewrite app_nil_r. intros Hne. rewrite (IH Hne).
    unfold getLastEnabledJar, getJarMask. cbv zeta.
    rewrite jars_set_jars, length_fmap. reflexivity.
Qed.

(** X4. [getSelectedJars] lists exactly the 1-based ids of the jars whose
    mask entry is true; it is empty exactly when nothing is selected, and
    otherwise its last id is [getLastEnabledJar] plus one. *)
Theorem getSelectedJars_spec (st : State) :
  (forall id : Z,
     id ∈ getSelectedJars st <->
     exists i : nat, id = Z.of_nat i + 1 /\ getJarMask st !! i = Some true)
  /\ (getSelectedJars st = [] <-> forall i : nat, getJarMask st !! i <> Some true)
  /\ (getSelectedJars st <> [] ->
        last (getSelectedJars st) = Some (getLastEnabledJar st + 1)).
Proof.
  split; [apply getSelectedJars_elem|]. split.
  - split.
    + intros Hnil i Hi.
      assert (Z.of_nat i + 1 ∈ getSelectedJars st) as Hin
        by (apply getSelectedJars_elem; eauto).
      rewrite Hnil in Hin. inversion Hin.
    + intros Hnone. destruct (getSelectedJars st) as [|id l] eqn:E; [reflexivity|].
      assert (id ∈ getSelectedJars st) as Hin by (rewrite E; left).
      apply getSelectedJars_elem in Hin as (i & _ & Hi). destruct (Hnone i Hi).
  - rewrite <- (set_jars_id st). apply last_selected_list.
Qed.

Lemma getSelectedJars_spec_witness :
  getSelectedJars scenarioStart <> []
  /\ last (getSelectedJars scenarioStart) = Some 2
  /\ getLastEnabledJar scenarioStart = 1.
Proof.
  assert (getSelectedJars scenarioStart <> []) as Hne by (vm_compute; discriminate).
  split; [exact Hne|]. split; [|reflexivity].
  exact (proj2 (proj2 (getSelectedJars_spec scenarioStart)) Hne).
Defined.

(** ** What the handlers do to the jars *)

Section JarsInduction.
Variable P : list Jar -> Prop.
Hypothesis P_reset : forall s, P (jars s) -> P (jars (resetJarStates s)).
Hypothesis P_recolor :
  forall c p s, P (jars s) -> P (jars (updateJarColors c p s)).

Lemma jars_onChannelChanged_ind f pc st :
  P (jars st) -> P (jars (onChannelChanged f pc st)).
Proof.
  intros H. unfold onChannelChanged.
  destruct (pc && _); [apply P_reset|]; exact H.
Qed.

#[local] Opaque extract onChannelChanged onPhaseChanged.

(** The handler acts on the jars only by resetting and recolouring. *)
Lemma jars_SSEHandler_ind d st :
  P (jars st) -> P (jars (SSEHandler d st)).
Proof.
  intros H. destruct d as [d|]; [|exact H].
  rewrite SSEHandler_obj. cbv zeta. shapes. simpl.
  destruct (phase_is _ _), (currentChannel st =? _); simpl;
    rewrite ?jars_onPhaseChanged; try apply P_recolor;
    try apply jars_onChannelChanged_ind; exact H.
Qed.

#[local] Transparent extract onChannelChanged onPhaseChanged.

Hypothesis P_click : forall i s, P (jars s) -> P (jars (jarClick i s)).
Hypothesis P_all : forall b s, P (jars s) -> P (jars (setAllJars b s)).
Hypothesis P_invert : forall s, P (jars s) -> P (jars (invertJars s)).
Hypothesis P_mask : forall m s, P (jars s) -> P (jars (applyJarMask m s)).

Lemma jars_step_ind st i : P (jars st) -> P (jars (step st i)).
Proof.
  intros H. destruct i as [d| | |r| |r|j| | | |p|]; simpl.
  - apply jars_SSEHandler_ind, H.
  - unfold btnStartClick. repeat case_match; exact H.
  - unfold countdownTick, startMeasurement. repeat case_match; exact H.
  - destruct r as [[] ?|?]; exact H.
  - exact H.
  - destruct r as [[] ?|?]; exact H.
  - apply P_click, H.
  - apply P_all, H.
  - apply P_all, H.
  - apply P_invert, H.
  - unfold prefsLoaded. apply P_mask. exact H.
  - unfold dismissToast. case_match; exact H.
Qed.

Lemma jars_run_ind inputs st : P (jars st) -> P (jars (run st inputs)).
Proof.
  revert st. induction inputs as [|i inputs IH]; intros st H; [exact H|].
  rewrite run_cons. apply IH, jars_step_ind, H.
Qed.
End JarsInduction.

Lemma length_updateJarColors c p s :
  length (jars (updateJarColors c p s)) = length (jars s).
Proof.
  unfold updateJarColors. repeat case_match; try reflexivity.
  simpl. apply length_insert.
Qed.

(** X5. No handler adds or removes a jar: over any sequence of inputs the
    grid keeps its length, and from page load the mask read has 31 entries. *)
Theorem jar_count_fixed (st : State) (inputs : list Input) :
  length (jars (run st inputs)) = length (jars st)
  /\ length (getJarMask (run initial inputs)) = TOTAL_JARS.
Proof.
  assert (forall s, length (jars (run s inputs)) = length (jars s)) as H.
  { intros s.
    apply (jars_run_ind (fun l => length l = length (jars s))); try reflexivity.
    - intros s' <-. unfold resetJarStates. simpl. apply length_fmap.
    - intros c p s' <-. apply length_updateJarColors.
    - intros i s' <-. unfold jarClick. case_match; [reflexivity|]. simpl.
      apply length_alter.
    - intros b s' <-. unfold setAllJars. simpl. apply length_fmap.
    - intros s' <-. unfold invertJars. simpl. apply length_fmap.
    - intros m s' <-. unfold applyJarMask. simpl. apply length_imap. }
  split; [apply H|]. unfold getJarMask. rewrite length_fmap, H. reflexivity.
Qed.


Lemma one_marker_recolor p j : one_marker (recolor p j).
Proof.
  unfold one_marker, recolor. destruct j as [a sg sd pa].
  repeat case_match; simpl; repeat split; try reflexivity;
    destruct sd; reflexivity.
Qed.

(** X6. If every jar shows at most one of the markers sampling, sampled and
    paused, this stays so over any sequence of inputs. *)
Theorem markers_exclusive (st : State) (inputs : list Input) :
  Forall one_marker (jars st) ->
  Forall one_marker (jars (run st inputs)).
Proof.
  apply jars_run_ind.
  - intros s H. unfold resetJarStates. simpl. apply Forall_fmap.
    eapply Forall_impl; [exact H|]. intros [a sg sd pa] _.
    unfold one_marker. simpl. repeat split; reflexivity.
  - intros c p s H. unfold updateJarColors. repeat case_match; try exact H.
    simpl. apply Forall_insert; [exact H|apply one_marker_recolor].
  - intros i s H. unfold jarClick. case_match; [exact H|]. simpl.
    apply Forall_alter; [exact H|]. intros [a sg sd pa] _ _.
    unfold one_marker. simpl. repeat split; reflexivity.
  - intros b s H. unfold setAllJars. simpl. apply Forall_fmap.
    eapply Forall_impl; [exact H|]. intros [a sg sd pa] Hj. exact Hj.
  - intros s H. unfold invertJars. simpl. apply Forall_fmap.
    eapply Forall_impl; [exact H|]. intros [a sg sd pa] Hj. exact Hj.
  - intros m s H. unfold applyJarMask. simpl.
    apply Forall_forall. intros j Hin.
    apply elem_of_lookup_imap in Hin as (i & j' & -> & Hl).
    rewrite Forall_forall in H.
    assert (one_marker j') as Hj by (apply H; eapply list_elem_of_lookup_2; eauto).
    destruct j'. exact Hj.
Qed.

Lemma markers_exclusive_witness :
  Forall one_marker (jars initial)
  /\ Forall one_marker
       (jars (run initial [ JarClick 0; SSE (Some (progress 0 "PAUSED" 0 1));
                            SSE (Some (progress 0 "SWITCHING" 0 1)) ])).
Proof.
  assert (Forall one_marker (jars initial)) as H.
  { apply Forall_forall. intros j Hj.
    change (j ∈ replicate 31 blankJar) in Hj.
    apply elem_of_replicate in Hj as [-> _]. repeat split. }
  split; [exact H|]. apply markers_exclusive. exact H.
Defined.

Lemma active_fmap_updateJarColors c p s :
  active <$> jars (updateJarColors c p s) = active <$> jars s.
Proof.
  unfold updateJarColors.
  destruct (jarIndex c (jars s)) as [n|]; [|reflexivity].
  destruct (jars s !! n) as [j|] eqn:Hn; [|reflexivity].
  destruct (active j); [|reflexivity]. simpl.
  rewrite list_fmap_insert, active_recolor. apply list_insert_id.
  rewrite list_lookup_fmap, Hn. reflexivity.
Qed.

(** X7. A progress event, whatever it carries, leaves the selection mask as
    it is: the handler reads the mask and never writes it. *)
Theorem events_keep_selection (st : State) (d : option Event) :
  getJarMask (SSEHandler d st) = getJarMask st
  /\ include_channels (collectPrefsData (SSEHandler d st))
     = include_channels (collectPrefsData st).
Proof.
  assert (getJarMask (SSEHandler d st) = getJarMask st) as Hmask.
  { unfold getJarMask.
    apply (jars_SSEHandler_ind (fun l => active <$> l = active <$> jars st));
      try reflexivity.
    - intros s <-. unfold resetJarStates. simpl. rewrite <- list_fmap_compose.
      apply list_fmap_ext. intros _ [a sg sd pa] _. reflexivity.
    - intros c p s <-. apply active_fmap_updateJarColors. }
  split; exact Hmask.
Qed.

Lemma jars_updateJarColors_ext c p s1 s2 :
  jars s1 = jars s2 ->
  jars (updateJarColors c p s1) = jars (updateJarColors c p s2).
Proof.
  intros H. unfold updateJarColors. rewrite H.
  repeat case_match; simpl; congruence.
Qed.

Lemma jars_onChannelChanged f pc st :
  jars (onChannelChanged f pc st)
  = if pc && (ch f =? 0) then jars (resetJarStates st) else jars st.
Proof. unfold onChannelChanged. destruct (pc && _); reflexivity. Qed.

#[local] Opaque extract onChannelChanged onPhaseChanged.

(** The jars after a progress event: untouched unless the phase changed; on a
    phase change the jar of the event's channel is recoloured, after a reset
    of all jars when the channel changed to 0. *)
Lemma jars_SSEHandler d st :
  jars (SSEHandler (Some d) st) =
  if phase_is (currentPhase st) (newPhase (extract d)) then jars st
  else jars (updateJarColors (ch (extract d)) (newPhase (extract d))
               (if negb (currentChannel st =? ch (extract d))
                   && (ch (extract d) =? 0)
                then resetJarStates st else st)).
Proof.
  rewrite SSEHandler_obj. cbv zeta.
  match goal with
  | |- context [updateCircles ?f ?s] =>
      destruct (updateCircles_shape f s) as (? & ? & ? & ->)
  end.
  simpl.
  destruct (phase_is _ _), (currentChannel st =? _); simpl;
    rewrite ?jars_onPhaseChanged, ?jars_onChannelChanged; try reflexivity;
    apply jars_updateJarColors_ext; rewrite ?jars_onChannelChanged;
    simpl; try reflexivity.
  destruct (_ =? 0); reflexivity.
Qed.

#[local] Transparent extract onChannelChanged onPhaseChanged.

Lemma jarIndex_Some c js n : jarIndex c js = Some n -> Z.of_nat n = c.
Proof.
  unfold jarIndex. destruct (_ && _) eqn:H; [|discriminate].
  intros [= <-]. apply andb_prop in H as [H _]. apply Z.leb_le in H. lia.
Qed.

Lemma lookup_updateJarColors_other c p s i :
  Z.of_nat i <> c -> jars (updateJarColors c p s) !! i = jars s !! i.
Proof.
  intros Hi. unfold updateJarColors.
  destruct (jarIndex c (jars s)) as [n|] eqn:Hn; [|reflexivity].
  apply jarIndex_Some in Hn.
  destruct (jars s !! n) as [j|]; [|reflexivity].
  destruct (active j); [|reflexivity]. simpl.
  apply list_lookup_insert_ne. intros ->. contradiction.
Qed.

Lemma updateJarColors_out_of_range c p s :
  c < 0 \/ Z.of_nat (length (jars s)) <= c -> updateJarColors c p s = s.
Proof.
  intros H. unfold updateJarColors, jarIndex.
  destruct (Z.leb_spec 0 c); destruct (Z.ltb_spec c (Z.of_nat (length (jars s))));
    simpl; try reflexivity. lia.
Qed.

(** X8. A progress event for a channel other than 0 changes no jar but the
    one of its channel; an event for a channel outside the grid changes no
    jar at all. *)
Theorem event_touches_own_jar (st : State) (d : Event) :
  (ch (extract d) <> 0 ->
   forall i : nat, Z.of_nat i <> ch (extract d) ->
     jars (SSEHandler (Some d) st) !! i = jars st !! i)
  /\ (ch (extract d) < 0 \/ Z.of_nat (length (jars st)) <= ch (extract d) ->
      ch (extract d) <> 0 ->
      jars (SSEHandler (Some d) st) = jars st).
Proof.
  split.
  - intros Hc i Hi. rewrite jars_SSEHandler.
    destruct (phase_is _ _); [reflexivity|].
    rewrite lookup_updateJarColors_other by assumption.
    destruct (Z.eqb_spec (ch (extract d)) 0) as [E|_]; [contradiction|].
    rewrite andb_false_r. reflexivity.
  - intros Hr Hc. rewrite jars_SSEHandler.
    destruct (phase_is _ _); [reflexivity|].
    destruct (Z.eqb_spec (ch (extract d)) 0) as [E|_]; [contradiction|].
    rewrite andb_false_r. rewrite updateJarColors_out_of_range by assumption.
    reflexivity.
Qed.

Lemma event_touches_own_jar_witness :
  (ch (extract (progress 40 "MEASURING" 0 2)) < 0
   \/ Z.of_nat (length (jars scenarioStart))
      <= ch (extract (progress 40 "MEASURING" 0 2)))
  /\ ch (extract (progress 40 "MEASURING" 0 2)) <> 0
  /\ jars (SSEHandler (Some (progress 40 "MEASURING" 0 2)) scenarioStart)
     = jars scenarioStart.
Proof.
  assert (ch (extract (progress 40 "MEASURING" 0 2)) < 0
          \/ Z.of_nat (length (jars scenarioStart))
             <= ch (extract (progress 40 "MEASURING" 0 2))) as Hrange
    by (right; vm_compute; discriminate).
  split; [exact Hrange|]. split; [discriminate|].
  apply (event_touches_own_jar scenarioStart (progress 40 "MEASURING" 0 2));
    [exact Hrange | discriminate].
Defined.

(** X9. A phase change that arrives together with a change of channel to 0
    starts a fresh pass: every jar but the first loses the sampling and the
    sampled marker and keeps its selection flag and its paused marker. *)
Theorem fresh_pass_resets_markers (st : State) (d : Event) (i : nat) (j : Jar) :
  phase_is (currentPhase st) (newPhase (extract d)) = false ->
  currentChannel st <> 0 ->
  ch (extract d) = 0 ->
  jars st !! i = Some j ->
  i <> 0%nat ->
  jars (SSEHandler (Some d) st) !! i
  = Some {| active := active j; sampling := false; sampled := false;
            paused := paused j |}.
Proof.
  intros Hp Hc Hch Hj Hi. rewrite jars_SSEHandler, Hp, Hch.
  destruct (Z.eqb_spec (currentChannel st) 0) as [E|_]; [contradiction|].
  simpl. rewrite lookup_updateJarColors_other by lia.
  unfold resetJarStates. simpl. rewrite list_lookup_fmap, Hj. reflexivity.
Qed.

Lemma fresh_pass_resets_markers_witness :
  phase_is (currentPhase scenarioMid)
    (newPhase (extract (progress 0 "MEASURING" 0 2))) = false
  /\ currentChannel scenarioMid <> 0
  /\ jars scenarioMid !! 1%nat
     = Some {| active := true; sampling := false; sampled := true;
               paused := false |}
  /\ jars (SSEHandler (Some (progress 0 "MEASURING" 0 2)) scenarioMid) !! 1%nat
     = Some {| active := true; sampling := false; sampled := false;
               paused := false |}.
Proof.
  split; [reflexivity|]. split; [discriminate|]. split; [reflexivity|].
  apply (fresh_pass_resets_markers scenarioMid (progress 0 "MEASURING" 0 2) 1
           {| active := true; sampling := false; sampled := true;
              paused := false |});
    first [reflexivity | discriminate].
Defined.

(** X10. After [highlightSamplingJar(id)] the jar with that id, selected or
    not, is the only jar that carries the sampling marker; the other classes
    of every jar are untouched. *)
Theorem highlightSamplingJar_spec (st : State) (id : Z) (i : nat) (j : Jar) :
  jars st !! i = Some j ->
  jars (highlightSamplingJar id st) !! i
  = Some {| active := active j; sampling := (Z.of_nat i + 1 =? id);
            sampled := sampled j; paused := paused j |}
  /\ getJarMask (highlightSamplingJar id st) = getJarMask st.
Proof.
  intros Hj. unfold highlightSamplingJar, getJarMask. simpl. split.
  - rewrite list_lookup_imap, Hj. simpl.
    destruct (Z.of_nat i + 1 =? id); reflexivity.
  - apply list_eq. intros n. rewrite !list_lookup_fmap, list_lookup_imap.
    destruct (jars st !! n) as [[a sg sd pa]|]; [|reflexivity]. simpl.
    destruct (Z.of_nat n + 1 =? id); reflexivity.
Qed.

Lemma highlightSamplingJar_spec_witness :
  jars scenarioMid !! 2%nat = Some blankJar
  /\ jars (highlightSamplingJar 3 scenarioMid) !! 2%nat
     = Some {| active := false; sampling := true; sampled := false;
               paused := false |}.
Proof.
  split; [reflexivity|].
  apply (highlightSamplingJar_spec scenarioMid 3 2 blankJar). reflexivity.
Defined.

(** * Further properties of the controls *)

(** ** What a phase change does to the controls *)

Ltac quiet_shapes :=
  repeat match goal with
  | |- context [updateJarColors ?c ?p ?s] =>
      let H := fresh in
      destruct (updateJarColors_shape c p s) as (? & H); rewrite H; clear H
  | |- context [showAlert ?m ?t ?s] =>
      let H := fresh in
      destruct (showAlert_shape m t s) as (? & H); rewrite H; clear H
  | |- context [updateCircles ?f ?s] =>
      let H := fresh in
      destruct (updateCircles_shape f s) as (? & ? & ? & H); rewrite H; clear H
  end.

Lemma onPhaseChanged_controls f st :
  countdownTimer (onPhaseChanged f st) = countdownTimer (applyPhase (newPhase f) st)
  /\ intervalLive (onPhaseChanged f st) = intervalLive (applyPhase (newPhase f) st)
  /\ countdown (onPhaseChanged f st) = countdown (applyPhase (newPhase f) st)
  /\ btnStart (onPhaseChanged f st) = btnStart (applyPhase (newPhase f) st)
  /\ btnAbort (onPhaseChanged f st) = btnAbort (applyPhase (newPhase f) st)
  /\ isMeasurementRunning (onPhaseChanged f st) = isActivePhase (newPhase f)
  /\ grid_locked (gridLock (onPhaseChanged f st)) = isActivePhase (newPhase f)
  /\ icon_lock (gridLock (onPhaseChanged f st)) = isActivePhase (newPhase f).
Proof.
  unfold onPhaseChanged, notifySummary, showMeasurementSummaryToast, emit.
  remember (applyPhase (newPhase f) st) as applied eqn:Happlied. clear Happlied.
  quiet_shapes. unfold updateGridLock. simpl.
  destruct (isActivePhase _), (String.eqb (newPhase f) "ABORTED"); simpl.
  all: quiet_shapes; simpl.
  all: try destruct (phase_is _ _ && _); quiet_shapes; simpl.
  all: repeat split; reflexivity.
Qed.

Lemma onChannelChanged_controls f pc st :
  countdownTimer (onChannelChanged f pc st) = countdownTimer st
  /\ intervalLive (onChannelChanged f pc st) = intervalLive st
  /\ countdown (onChannelChanged f pc st) = countdown st
  /\ btnStart (onChannelChanged f pc st) = btnStart st
  /\ btnAbort (onChannelChanged f pc st) = btnAbort st
  /\ isMeasurementRunning (onChannelChanged f pc st) = isMeasurementRunning st
  /\ gridLock (onChannelChanged f pc st) = gridLock st.
Proof.
  unfold onChannelChanged, resetJarStates.
  destruct (pc && _); repeat split; reflexivity.
Qed.

Lemma applyPhase_reads p s st :
  countdownTimer s = countdownTimer st -> intervalLive s = intervalLive st ->
  countdown s = countdown st -> btnStart s = btnStart st ->
  btnAbort s = btnAbort st ->
  countdownTimer (applyPhase p s) = countdownTimer (applyPhase p st)
  /\ intervalLive (applyPhase p s) = intervalLive (applyPhase p st)
  /\ countdown (applyPhase p s) = countdown (applyPhase p st)
  /\ btnStart (applyPhase p s) = btnStart (applyPhase p st)
  /\ btnAbort (applyPhase p s) = btnAbort (applyPhase p st).
Proof.
  intros Ht Hl Hc Hb Ha. unfold applyPhase, clearCountdown. rewrite Ht.
  destruct (countdownTimer st && _); simpl; rewrite ?Ht, ?Hl, ?Hc, ?Hb, ?Ha;
    repeat split; reflexivity.
Qed.

#[local] Opaque extract onChannelChanged onPhaseChanged applyPhase.

(** The controls after a progress event: as they were if the phase is the
    stored one, otherwise as [applyPhase] leaves them, with the running flag
    and the grid lock set from the new phase. *)
Lemma controls_SSEHandler d st :
  if phase_is (currentPhase st) (newPhase (extract d)) then
    countdownTimer (SSEHandler (Some d) st) = countdownTimer st
    /\ intervalLive (SSEHandler (Some d) st) = intervalLive st
    /\ countdown (SSEHandler (Some d) st) = countdown st
    /\ btnStart (SSEHandler (Some d) st) = btnStart st
    /\ btnAbort (SSEHandler (Some d) st) = btnAbort st
    /\ isMeasurementRunning (SSEHandler (Some d) st) = isMeasurementRunning st
    /\ gridLock (SSEHandler (Some d) st) = gridLock st
  else
    countdownTimer (SSEHandler (Some d) st)
    = countdownTimer (applyPhase (newPhase (extract d)) st)
    /\ intervalLive (SSEHandler (Some d) st)
       = intervalLive (applyPhase (newPhase (extract d)) st)
    /\ countdown (SSEHandler (Some d) st)
       = countdown (applyPhase (newPhase (extract d)) st)
    /\ btnStart (SSEHandler (Some d) st)
       = btnStart (applyPhase (newPhase (extract d)) st)
    /\ btnAbort (SSEHandler (Some d) st)
       = btnAbort (applyPhase (newPhase (extract d)) st)
    /\ isMeasurementRunning (SSEHandler (Some d) st)
       = isActivePhase (newPhase (extract d))
    /\ grid_locked (gridLock (SSEHandler (Some d) st))
       = isActivePhase (newPhase (extract d))
    /\ icon_lock (gridLock (SSEHandler (Some d) st))
       = isActivePhase (newPhase (extract d)).
Proof.
  rewrite SSEHandler_obj. cbv zeta.
  match goal with
  | |- context [updateCircles ?f ?s] =>
      destruct (updateCircles_shape f s) as (? & ? & ? & ->)
  end.
  destruct (phase_is _ _), (currentChannel st =? _); simpl.
  - repeat split; reflexivity.
  - destruct (onChannelChanged_controls (extract d) false (storeLatest d st))
      as (-> & -> & -> & -> & -> & -> & ->). repeat split; reflexivity.
  - destruct (onPhaseChanged_controls (extract d) (storeLatest d st))
      as (-> & -> & -> & -> & -> & -> & -> & ->).
    destruct (applyPhase_reads (newPhase (extract d)) (storeLatest d st) st)
      as (-> & -> & -> & -> & ->); try reflexivity.
    repeat split; reflexivity.
  - destruct (onPhaseChanged_controls (extract d)
                (onChannelChanged (extract d) true (storeLatest d st)))
      as (-> & -> & -> & -> & -> & -> & -> & ->).
    destruct (onChannelChanged_controls (extract d) true (storeLatest d st))
      as (Ht & Hl & Hc & Hb & Ha & _).
    destruct (applyPhase_reads (newPhase (extract d))
                (onChannelChanged (extract d) true (storeLatest d st)) st)
      as (-> & -> & -> & -> & ->); try assumption.
    repeat split; reflexivity.
Qed.

#[local] Transparent extract onChannelChanged onPhaseChanged applyPhase.

Lemma applyPhase_timer p st :
  (countdownTimer st && negb (String.eqb p "IDLE") = true ->
     countdownTimer (applyPhase p st) = false
     /\ intervalLive (applyPhase p st) = false
     /\ countdown (applyPhase p st) = START_DELAY)
  /\ (countdownTimer st && negb (String.eqb p "IDLE") = false ->
     countdownTimer (applyPhase p st) = countdownTimer st
     /\ intervalLive (applyPhase p st) = intervalLive st
     /\ countdown (applyPhase p st) = countdown st).
Proof.
  unfold applyPhase, clearCountdown.
  destruct (countdownTimer st && _); split; intros H; try discriminate H;
    repeat split; reflexivity.
Qed.

Lemma applyPhase_buttons p st :
  disabled (btnStart (applyPhase p st)) = negb (resting p)
  /\ abort_disabled (btnAbort (applyPhase p st)) = resting p
  /\ (resting p = true ->
      textContent (btnStart (applyPhase p st)) = "Start Measurement")
  /\ (p = "ABORTED" ->
      abort_textContent (btnAbort (applyPhase p st)) = "Aborted...").
Proof.
  unfold applyPhase, clearCountdown, resting.
  destruct (countdownTimer st && _); simpl;
    destruct (String.eqb p "IDLE" || String.eqb p "ABORTED") eqn:Hr; simpl;
    (split_and!; [reflexivity | reflexivity | intros; first [reflexivity | discriminate] |]);
    intros ->; simpl in Hr; try discriminate Hr; reflexivity.
Qed.

Lemma active_not_idle p : isActivePhase p = true -> String.eqb p "IDLE" = false.
Proof.
  unfold isActivePhase. destruct (String.eqb_spec p "IDLE") as [->|]; [|reflexivity].
  discriminate.
Qed.

(** X11. When the phase of a progress event differs from the stored one, the
    start button is enabled exactly if the new phase is IDLE or ABORTED and
    the abort button is its opposite; the running flag and the grid lock are
    set exactly for MEASURING, PAUSED, SWITCHING and HOMING.  A phase string
    outside the six variants thus disables start and enables abort without
    locking the grid. *)
Theorem phase_change_gates_controls (st : State) (d : Event) :
  phase_is (currentPhase st) (newPhase (extract d)) = false ->
  disabled (btnStart (SSEHandler (Some d) st)) = negb (resting (newPhase (extract d)))
  /\ abort_disabled (btnAbort (SSEHandler (Some d) st)) = resting (newPhase (extract d))
  /\ isMeasurementRunning (SSEHandler (Some d) st)
     = isActivePhase (newPhase (extract d))
  /\ grid_locked (gridLock (SSEHandler (Some d) st))
     = isActivePhase (newPhase (extract d))
  /\ (resting (newPhase (extract d)) = true ->
      textContent (btnStart (SSEHandler (Some d) st)) = "Start Measurement").
Proof.
  intros Hp. pose proof (controls_SSEHandler d st) as H. rewrite Hp in H.
  destruct H as (_ & _ & _ & Hb & Ha & Hr & Hg & _).
  destruct (applyPhase_buttons (newPhase (extract d)) st) as (Hd & Hab & Htxt & _).
  rewrite Hb, Ha, Hr, Hg. split_and!; auto.
Qed.

Lemma phase_change_gates_controls_witness :
  phase_is (currentPhase initial)
    (newPhase (extract (phaseOnly "CALIBRATING"))) = false
  /\ disabled (btnStart (SSEHandler (Some (phaseOnly "CALIBRATING")) initial)) = true
  /\ abort_disabled (btnAbort (SSEHandler (Some (phaseOnly "CALIBRATING")) initial))
     = false
  /\ grid_locked (gridLock (SSEHandler (Some (phaseOnly "CALIBRATING")) initial))
     = false.
Proof.
  split; [reflexivity|].
  destruct (phase_change_gates_controls initial (phaseOnly "CALIBRATING") eq_refl)
    as (H1 & H2 & _ & H4 & _).
  split; [exact H1|]. split; [exact H2|exact H4].
Defined.

(** X12. While a measurement is running, the start click and the jar clicks
    change nothing, and no input at all makes the page issue a start request
    or write the run identifier. *)
Theorem running_blocks_start (st : State) (i : Input) :
  isMeasurementRunning st = true ->
  btnStartClick st = st
  /\ (forall n : nat, jarClick n st = st)
  /\ startRequests (step st i) = startRequests st
  /\ measurementCycle (step st i) = measurementCycle st.
Proof.
  intros Hr. split_and!.
  - unfold btnStartClick. now rewrite Hr.
  - intros n. unfold jarClick. now rewrite Hr.
  - destruct i as [d| | |r| |r|j| | | |p|]; simpl; try reflexivity.
    + apply startRequests_SSEHandler.
    + unfold btnStartClick. now rewrite Hr.
    + unfold countdownTick. rewrite Hr. destruct (intervalLive st); reflexivity.
    + destruct r as [[] m|e]; simpl; rewrite ?startRequests_emit; reflexivity.
    + unfold abortConfirmed. now rewrite startRequests_emit.
    + destruct r as [[] m|e]; simpl; rewrite ?startRequests_emit; reflexivity.
    + unfold jarClick. now rewrite Hr.
    + unfold dismissToast. case_match; reflexivity.
  - destruct i as [d| | |r| |r|j| | | |p|]; simpl; try reflexivity.
    + apply SSEHandler_session.
    + unfold btnStartClick. now rewrite Hr.
    + unfold countdownTick. rewrite Hr. destruct (intervalLive st); reflexivity.
    + destruct r as [[] m|e]; reflexivity.
    + destruct r as [[] m|e]; reflexivity.
    + unfold jarClick. now rewrite Hr.
    + unfold dismissToast. case_match; reflexivity.
Qed.

Lemma running_blocks_start_witness :
  isMeasurementRunning scenarioMid = true
  /\ startRequests (step scenarioMid TimerTick) = startRequests scenarioMid
  /\ btnStartClick scenarioMid = scenarioMid.
Proof.
  split; [reflexivity|].
  destruct (running_blocks_start scenarioMid TimerTick eq_refl) as (H1 & _ & H3 & _).
  split; [exact H3|exact H1].
Defined.

(** ** Countdown and phase events *)

Lemma countdown_safe_step st i : countdown_safe st -> countdown_safe (step st i).
Proof.
  intros [Heq Hrun]. unfold countdown_safe.
  assert (forall s,
            countdownTimer s = countdownTimer st ->
            intervalLive s = intervalLive st ->
            isMeasurementRunning s = isMeasurementRunning st ->
            countdownTimer s = intervalLive s
            /\ (isMeasurementRunning s = true -> countdownTimer s = false)) as Hsame.
  { intros s -> -> ->. split; assumption. }
  destruct i as [d| | |r| |r|j| | | |p|]; simpl;
    try (apply Hsame; reflexivity).
  - destruct d as [d|]; [|apply Hsame; reflexivity].
    pose proof (controls_SSEHandler d st) as H.
    destruct (phase_is _ _).
    + destruct H as (H1 & H2 & _ & _ & _ & H3 & _). apply Hsame; assumption.
    + destruct H as (-> & -> & _ & _ & _ & -> & _).
      destruct (applyPhase_timer (newPhase (extract d)) st) as [Hclr Hkeep].
      destruct (countdownTimer st && negb (String.eqb (newPhase (extract d)) "IDLE"))
        eqn:Hcond.
      * destruct (Hclr eq_refl) as (-> & -> & _). split; reflexivity.
      * destruct (Hkeep eq_refl) as (-> & -> & _). split; [assumption|].
        intros Hact. apply active_not_idle in Hact. rewrite Hact in Hcond.
        simpl in Hcond. rewrite andb_true_r in Hcond. exact Hcond.
  - unfold btnStartClick.
    destruct (isMeasurementRunning st) eqn:Hr;
      [split; [congruence | intros ?; apply Hrun; congruence]|].
    simpl. destruct (countdownTimer st); simpl; rewrite Hr; split;
      try reflexivity; discriminate.
  - unfold countdownTick.
    destruct (intervalLive st) eqn:Hl; simpl;
      [|split; [congruence | intros ?; apply Hrun; congruence]].
    destruct (isMeasurementRunning st) eqn:Hr; simpl.
    + rewrite (Hrun eq_refl) in Heq. discriminate.
    + destruct (_ <=? 0); simpl; rewrite ?Hr, ?Hl; split;
        first [reflexivity | discriminate | congruence].
  - destruct r as [[] m|e]; apply Hsame; reflexivity.
  - destruct r as [[] m|e]; apply Hsame; reflexivity.
  - apply Hsame; unfold jarClick; case_match; simpl; congruence.
  - apply Hsame; unfold dismissToast; case_match; reflexivity.
Qed.

(** X13. Over any sequence of inputs the timer handle is set exactly while
    the countdown interval is pending, and no countdown is pending while a
    measurement is running: a countdown and a run never overlap. *)
Theorem countdown_never_overlaps_run (st : State) (inputs : list Input) :
  countdown_safe st -> countdown_safe (run st inputs).
Proof.
  revert st. induction inputs as [|i inputs IH]; intros st H; [exact H|].
  rewrite run_cons. apply IH, countdown_safe_step, H.
Qed.

Lemma countdown_never_overlaps_run_witness :
  countdown_safe initial
  /\ countdown_safe
       (run initial [ StartClick; TimerTick;
                      SSE (Some (progress 0 "MEASURING" 0 2)); TimerTick ]).
Proof.
  assert (countdown_safe initial) as H by (split; [reflexivity|discriminate]).
  split; [exact H|]. apply countdown_never_overlaps_run. exact H.
Defined.

(** X14. A progress event that changes the phase to anything but IDLE cancels
    a pending countdown: the handle is cleared, the countdown is back at its
    start value, and however many ticks follow no start request is issued. *)
Theorem phase_event_cancels_countdown (c : Z) (st : State) (d : Event) (m : nat) :
  counting c st ->
  phase_is (currentPhase st) (newPhase (extract d)) = false ->
  newPhase (extract d) <> "IDLE" ->
  countdownTimer (SSEHandler (Some d) st) = false
  /\ intervalLive (SSEHandler (Some d) st) = false
  /\ countdown (SSEHandler (Some d) st) = START_DELAY
  /\ startRequests (run st (SSE (Some d) :: replicate m TimerTick))
     = startRequests st.
Proof.
  intros (Hr & Ht & Hl & Hc) Hp Hidle.
  pose proof (controls_SSEHandler d st) as H. rewrite Hp in H.
  destruct H as (Ht' & Hl' & Hc' & _).
  destruct (applyPhase_timer (newPhase (extract d)) st) as [Hclr _].
  destruct Hclr as (E1 & E2 & E3).
  { rewrite Ht. simpl. apply negb_true_iff, String.eqb_neq. exact Hidle. }
  rewrite Ht', Hl', Hc', E1, E2, E3. split_and!; try reflexivity.
  rewrite run_cons. cbn [step].
  rewrite ticks_when_cleared by (now rewrite Hl', E2).
  apply startRequests_SSEHandler.
Qed.

Lemma phase_event_cancels_countdown_witness :
  counting 4 (run initial [StartClick; TimerTick])
  /\ startRequests
       (run (run initial [StartClick; TimerTick])
          (SSE (Some (progress 0 "MEASURING" 0 2)) :: replicate 9 TimerTick))
     = 0%nat.
Proof.
  assert (counting 4 (run initial [StartClick; TimerTick])) as H
    by (repeat split).
  split; [exact H|].
  refine (proj2 (proj2 (proj2
    (phase_event_cancels_countdown 4 _ (progress 0 "MEASURING" 0 2) 9 H eq_refl _)))).
  discriminate.
Defined.

(** X15. A progress event that changes the phase to IDLE does not cancel a
    pending countdown: it resets the start button to "Start Measurement" but
    the interval keeps running, and the start request is issued when the
    remaining ticks have elapsed. *)
Theorem idle_event_keeps_countdown (c : nat) (st : State) (d : Event) :
  counting (Z.of_nat (S c)) st ->
  phase_is (currentPhase st) (newPhase (extract d)) = false ->
  newPhase (extract d) = "IDLE" ->
  counting (Z.of_nat (S c)) (SSEHandler (Some d) st)
  /\ textContent (btnStart (SSEHandler (Some d) st)) = "Start Measurement"
  /\ startRequests (run st (SSE (Some d) :: replicate (S c) TimerTick))
     = S (startRequests st).
Proof.
  intros (Hr & Ht & Hl & Hc) Hp Hidle.
  pose proof (controls_SSEHandler d st) as H. rewrite Hp in H.
  destruct H as (Ht' & Hl' & Hc' & Hb' & _ & Hr' & _).
  destruct (applyPhase_timer (newPhase (extract d)) st) as [_ Hkeep].
  destruct Hkeep as (E1 & E2 & E3).
  { rewrite Hidle. simpl. apply andb_false_r. }
  destruct (applyPhase_buttons (newPhase (extract d)) st) as (_ & _ & Htxt & _).
  assert (counting (Z.of_nat (S c)) (SSEHandler (Some d) st)) as Hcnt.
  { unfold counting. rewrite Hr', Ht', Hl', Hc', E1, E2, E3, Hidle.
    split_and!; try assumption. reflexivity. }
  split; [exact Hcnt|]. split.
  - rewrite Hb'. apply Htxt. rewrite Hidle. reflexivity.
  - rewrite run_cons. cbn [step].
    change (replicate (S c) TimerTick) with (TimerTick :: replicate c TimerTick).
    replace (TimerTick :: replicate c TimerTick)
      with (replicate c TimerTick ++ [TimerTick])
      by (symmetry; apply (replicate_cons_app c TimerTick)).
    rewrite run_app, run_cons. cbn [step]. change (run ?s []) with s.
    destruct (ticks_count_down c _ _ Hcnt) as [Hcnt' Hlog]; [lia|].
    replace (Z.of_nat (S c) - Z.of_nat c) with 1 in Hcnt' by lia.
    destruct (tick_expires _ Hcnt') as (-> & _).
    f_equal. unfold startRequests at 1. rewrite Hlog.
    apply startRequests_SSEHandler.
Qed.

Lemma idle_event_keeps_countdown_witness :
  counting (Z.of_nat 4) (run initial [SSE (Some (phaseOnly "ABORTED"));
                                      StartClick; TimerTick])
  /\ startRequests
       (run (run initial [SSE (Some (phaseOnly "ABORTED")); StartClick; TimerTick])
          (SSE (Some (phaseOnly "IDLE")) :: replicate 4 TimerTick))
     = 1%nat.
Proof.
  assert (counting (Z.of_nat 4)
            (run initial [SSE (Some (phaseOnly "ABORTED")); StartClick; TimerTick]))
    as H by (repeat split).
  split; [exact H|].
  exact (proj2 (proj2
    (idle_event_keeps_countdown 3 _ (phaseOnly "IDLE") H eq_refl eq_refl))).
Defined.

Lemma lock_consistent_step st i : lock_consistent st -> lock_consistent (step st i).
Proof.
  intros [Hg Hi]. unfold lock_consistent.
  assert (forall s,
            gridLock s = gridLock st ->
            isMeasurementRunning s = isMeasurementRunning st ->
            grid_locked (gridLock s) = isMeasurementRunning s
            /\ icon_lock (gridLock s) = isMeasurementRunning s) as Hsame.
  { intros s -> ->. split; assumption. }
  destruct i as [d| | |r| |r|j| | | |p|]; simpl;
    try (apply Hsame; reflexivity).
  - destruct d as [d|]; [|apply Hsame; reflexivity].
    pose proof (controls_SSEHandler d st) as H.
    destruct (phase_is _ _).
    + destruct H as (_ & _ & _ & _ & _ & H1 & H2). apply Hsame; assumption.
    + destruct H as (_ & _ & _ & _ & _ & -> & -> & ->). split; reflexivity.
  - apply Hsame; unfold btnStartClick; repeat case_match; simpl; congruence.
  - apply Hsame; unfold countdownTick, startMeasurement; repeat case_match;
      simpl; congruence.
  - destruct r as [[] m|e]; apply Hsame; reflexivity.
  - destruct r as [[] m|e]; apply Hsame; reflexivity.
  - apply Hsame; unfold jarClick; case_match; simpl; congruence.
  - apply Hsame; unfold dismissToast; case_match; reflexivity.
Qed.

(** X16. Over any sequence of inputs the grid lock shows the running flag:
    the grid is locked, and the lock icon shown, exactly while
    [isMeasurementRunning] is set. *)
Theorem grid_lock_follows_running (st : State) (inputs : list Input) :
  lock_consistent st -> lock_consistent (run st inputs).
Proof.
  revert st. induction inputs as [|i inputs IH]; intros st H; [exact H|].
  rewrite run_cons. apply IH, lock_consistent_step, H.
Qed.

Lemma grid_lock_follows_running_witness :
  lock_consistent initial
  /\ lock_consistent
       (run initial [ SSE (Some (progress 0 "MEASURING" 0 2));
                      SSE (Some (progress 0 "IDLE" 0 2)) ]).
Proof.
  assert (lock_consistent initial) as H by (split; reflexivity).
  split; [exact H|]. apply grid_lock_follows_running. exact H.
Defined.

(** X17. Progress events alone, however many and whatever they carry, never
    leave the sampling or the paused marker on a jar that is not selected. *)
Theorem events_never_mark_unselected (st : State) (events : list (option Event)) :
  unselected_unmarked (jars st) ->
  unselected_unmarked (jars (run st (SSE <$> events))).
Proof.
  revert st. induction events as [|d events IH]; intros st H; [exact H|].
  rewrite fmap_cons, run_cons. apply IH. cbn [step].
  apply SSEHandler_unmarked. exact H.
Qed.

Lemma events_never_mark_unselected_witness :
  unselected_unmarked (jars scenarioStart)
  /\ unselected_unmarked
       (jars (run scenarioStart
                (SSE <$> [ Some (progress 0 "MEASURING" 0 2);
                           Some (progress 5 "PAUSED" 1 2); None ]))).
Proof.
  assert (unselected_unmarked (jars scenarioStart)) as H.
  { apply Forall_forall. intros j Hj.
    change (j ∈ [ {| active := true; sampling := false; sampled := false;
                     paused := false |};
                  {| active := true; sampling := false; sampled := false;
                     paused := false |} ] ++ replicate 29 blankJar) in Hj.
    apply elem_of_app in Hj as [Hj|Hj].
    - intros _. apply elem_of_cons in Hj as [->|Hj]; [reflexivity|].
      apply elem_of_cons in Hj as [->|Hj]; [reflexivity|]. inversion Hj.
    - apply elem_of_replicate in Hj as [-> _]. reflexivity. }
  split; [exact H|]. apply events_never_mark_unselected. exact H.
Defined.

(** ** Channel display *)

Lemma channelInfo_SSEHandler d st :
  channelInfo (SSEHandler (Some d) st) =
  if negb (phase_is (currentPhase st) (newPhase (extract d)))
     || negb (currentChannel st =? ch (extract d))
  then {| badge := JS.toString (ch (extract d) + 1);
          circle_phase := newPhase (extract d) |}
  else channelInfo st.
Proof.
  rewrite SSEHandler_obj. cbv zeta.
  match goal with
  | |- context [updateCircles ?f ?s] =>
      destruct (updateCircles_shape f s) as (? & ? & ? & ->)
  end.
  destruct (phase_is _ _), (currentChannel st =? _); reflexivity.
Qed.

Lemma display_consistent_step st i :
  display_consistent st -> display_consistent (step st i).
Proof.
  intros H. unfold display_consistent.
  assert (forall s,
            channelInfo s = channelInfo st ->
            currentChannel s = currentChannel st ->
            currentPhase s = currentPhase st ->
            forall p, currentPhase s = Some p ->
              channelInfo s
              = {| badge := JS.toString (currentChannel s + 1);
                   circle_phase := p |}) as Hsame.
  { intros s -> -> ->. exact H. }
  destruct i as [d| | |r| |r|j| | | |p|]; cbn [step];
    try (apply Hsame; reflexivity).
  - destruct d as [d|]; [|apply Hsame; reflexivity].
    destruct (SSEHandler_stores d st) as [Hc Hp].
    intros p. rewrite Hc, Hp, channelInfo_SSEHandler. intros [= <-].
    destruct (phase_is _ _) eqn:Ephase, (Z.eqb_spec (currentChannel st) (ch (extract d)))
      as [Ech|Ech]; try reflexivity.
    apply phase_is_true in Ephase. cbn [negb orb]. rewrite <- Ech.
    apply H. exact Ephase.
  - apply Hsame; unfold btnStartClick; repeat case_match; reflexivity.
  - apply Hsame; unfold countdownTick, startMeasurement; repeat case_match;
      reflexivity.
  - destruct r as [[] m|e]; apply Hsame; reflexivity.
  - destruct r as [[] m|e]; apply Hsame; reflexivity.
  - apply Hsame; unfold jarClick; case_match; reflexivity.
  - apply Hsame; unfold dismissToast; case_match; reflexivity.
Qed.

(** X18. Over any sequence of inputs, once a phase is stored the channel
    badge shows the stored channel plus one and the channel circle carries
    the stored phase. *)
Theorem channel_display_follows_stored_pair (st : State) (inputs : list Input) :
  display_consistent st -> display_consistent (run st inputs).
Proof.
  revert st. induction inputs as [|i inputs IH]; intros st H; [exact H|].
  rewrite run_cons. apply IH, display_consistent_step, H.
Qed.

Lemma channel_display_follows_stored_pair_witness :
  display_consistent initial
  /\ channelInfo (run initial [ SSE (Some (progress 0 "MEASURING" 0 2));
                                SSE (Some (progress 1 "MEASURING" 1 2)) ])
     = {| badge := "2"; circle_phase := "MEASURING" |}.
Proof.
  assert (display_consistent initial) as H by (intros p Hp; discriminate Hp).
  split; [exact H|].
  exact (channel_display_follows_stored_pair initial
           [ SSE (Some (progress 0 "MEASURING" 0 2));
             SSE (Some (progress 1 "MEASURING" 1 2)) ] H "MEASURING" eq_refl).
Defined.

(** ** Progress circles *)

Lemma Qle_bool_inject_Z a b : Qle_bool (inject_Z a) (inject_Z b) = (a <=? b).
Proof. unfold Qle_bool. simpl. now rewrite !Z.mul_1_r. Qed.

Lemma Qeq_bool_inject_Z a : Qeq_bool (inject_Z a) 0 = (a =? 0).
Proof. unfold Qeq_bool. simpl. rewrite Z.mul_1_r. reflexivity. Qed.

Lemma clamp_ofZ n : clamp (JS.ofZ n) = JS.ofZ (clampZ n).
Proof.
  unfold clamp, JS.ofZ, clampZ, JS.or0. rewrite Qeq_bool_inject_Z.
  destruct (Z.eqb_spec n 0) as [->|Hn]; [reflexivity|].
  unfold JS.min. change 100%Q with (inject_Z 100). rewrite Qle_bool_inject_Z.
  destruct (Z.leb_spec n 100); unfold JS.max; change 0%Q with (inject_Z 0);
    rewrite Qle_bool_inject_Z.
  - destruct (Z.leb_spec 0 n); do 2 f_equal; lia.
  - simpl. do 2 f_equal. lia.
Qed.

Lemma zor0_id n : zor0 n = n.
Proof. unfold zor0. destruct (Z.eqb_spec n 0); congruence. Qed.

Lemma colorRange_ofZ n :
  colorRange (JS.ofZ n) =
  if n <=? 25 then "0-25" else if n <=? 50 then "26-50"
  else if n <=? 75 then "51-75" else "76-100".
Proof.
  unfold colorRange, JS.ofZ, JS.le.
  change 25%Q with (inject_Z 25). change 50%Q with (inject_Z 50).
  change 75%Q with (inject_Z 75). rewrite !Qle_bool_inject_Z. reflexivity.
Qed.

(** X19. The overall circle shows the server's integer percentage clamped to
    0..100: stroke, label and bucket are all computed from the same clamped
    value, the bucket changing after 25, 50 and 75. *)
Theorem overall_circle_spec (st : State) (percent : Z) :
  overallCircle (updateCircularProgress percent st)
  = {| stroke_pct := JS.ofZ (clampZ percent);
       label := JS.toString (clampZ percent) +:+ "%";
       data_pct :=
         if clampZ percent <=? 25 then "0-25"
         else if clampZ percent <=? 50 then "26-50"
         else if clampZ percent <=? 75 then "51-75" else "76-100" |}
  /\ 0 <= clampZ percent <= 100
  /\ (0 <= percent <= 100 -> clampZ percent = percent)
  /\ (percent < 0 -> clampZ percent = 0)
  /\ (100 < percent -> clampZ percent = 100).
Proof.
  split.
  - unfold updateCircularProgress, updateProgressCircle. simpl.
    rewrite zor0_id. fold (clampZ percent).
    rewrite clamp_ofZ, colorRange_ofZ.
    assert (clampZ (clampZ percent) = clampZ percent) as -> by (unfold clampZ; lia).
    reflexivity.
  - unfold clampZ. lia.
Qed.

Lemma overall_circle_spec_witness :
  100 < 250
  /\ overallCircle (updateCircularProgress 250 initial)
     = {| stroke_pct := JS.Fin 100; label := "100%"; data_pct := "76-100" |}.
Proof.
  split; [reflexivity|].
  destruct (overall_circle_spec initial 250) as (H & _). rewrite H. reflexivity.
Defined.

(** X20. The cycle circle shows the server's step percentage clamped to
    0..100.  Its label counts the step index modulo the number of enabled
    channels, so it lies between 0 and the count minus one and reads 0 again
    when a cycle is complete; without a positive count it reads 0. *)
Theorem cycle_circle_spec (st : State) (percent stepIndex enabledCount : Z) :
  stroke_pct (runCircle (updateCycleProgress percent stepIndex enabledCount st))
  = JS.ofZ (clampZ percent)
  /\ (0 < enabledCount -> 0 <= stepIndex ->
      label (runCircle (updateCycleProgress percent stepIndex enabledCount st))
      = JS.toString (stepIndex mod enabledCount) +:+ "/" +:+ JS.toString enabledCount
      /\ 0 <= stepIndex mod enabledCount < enabledCount)
  /\ (enabledCount <= 0 ->
      label (runCircle (updateCycleProgress percent stepIndex enabledCount st))
      = JS.toString 0 +:+ "/" +:+ JS.toString enabledCount).
Proof.
  unfold updateCycleProgress, updateProgressCircle. simpl. rewrite zor0_id.
  split; [apply clamp_ofZ|]. split.
  - intros He Hs. destruct (Z.ltb_spec 0 enabledCount); [|lia].
    unfold JS.rem. rewrite Z.rem_mod_nonneg by lia.
    split; [reflexivity|]. apply Z.mod_pos_bound. lia.
  - intros He. destruct (Z.ltb_spec 0 enabledCount); [lia|]. reflexivity.
Qed.

Lemma cycle_circle_spec_witness :
  0 < 3 /\ 0 <= 3
  /\ label (runCircle (updateCycleProgress 40 3 3 initial)) = "0/3"%string.
Proof.
  split; [reflexivity|]. split; [discriminate|].
  destruct (cycle_circle_spec initial 40 3 3) as (_ & H & _).
  destruct H as [-> _]; [reflexivity | discriminate | reflexivity].
Defined.

(** X21. After every object payload each of the three progress circles shows
    a finite percentage between 0 and 100, whatever numbers the payload
    carries. *)
Theorem circles_stay_in_range (st : State) (d : Event) :
  circle_in_range (repeatCircle (SSEHandler (Some d) st))
  /\ circle_in_range (runCircle (SSEHandler (Some d) st))
  /\ circle_in_range (overallCircle (SSEHandler (Some d) st)).
Proof.
  destruct (SSEHandler_decomp d st) as (mid & -> & _).
  unfold circle_in_range, updateCircles, updateRepeatInfo, updateCycleProgress,
    updateCircularProgress, updateProgressCircle.
  simpl. split_and!; apply clamp_bounds.
Qed.

(** * Further properties of alerts, preferences and the run identifier *)

(** ** Dismissal record *)

Section AlertInduction.
Variable P : option Toast -> gmap string bool -> Prop.
Hypothesis P_show :
  forall m t s,
    P (centerToast s) (dismissedAlerts s) ->
    P (centerToast (showAlert m t s)) (dismissedAlerts (showAlert m t s)).
Hypothesis P_dismiss :
  forall s,
    P (centerToast s) (dismissedAlerts s) ->
    P (centerToast (dismissToast s)) (dismissedAlerts (dismissToast s)).

Lemma alerts_notifySummary_ind f s :
  P (centerToast s) (dismissedAlerts s) ->
  P (centerToast (notifySummary f s)) (dismissedAlerts (notifySummary f s)).
Proof.
  intros H. unfold notifySummary, showMeasurementSummaryToast.
  destruct (String.eqb (newPhase f) "ABORTED"); [apply P_show; exact H|].
  destruct (phase_is _ _ && _); [apply P_show; exact H|exact H].
Qed.

Lemma alerts_onPhaseChanged_ind f st :
  P (centerToast st) (dismissedAlerts st) ->
  P (centerToast (onPhaseChanged f st)) (dismissedAlerts (onPhaseChanged f st)).
Proof.
  intros H. unfold onPhaseChanged.
  match goal with
  | |- P (centerToast (set_currentPhase ?v ?s)) _ =>
      change (P (centerToast s) (dismissedAlerts s))
  end.
  apply alerts_notifySummary_ind.
  destruct (applyPhase_shape (newPhase f) st) as (t & l & c & b & a & ->).
  match goal with
  | |- context [updateJarColors ?c ?p ?s] =>
      destruct (updateJarColors_shape c p s) as (? & ->)
  end.
  match goal with
  | |- context [updateGridLock ?s] =>
      destruct (updateGridLock_shape s) as (? & ->)
  end.
  destruct (isActivePhase _); exact H.
Qed.

Lemma alerts_onChannelChanged_ind f pc st :
  P (centerToast st) (dismissedAlerts st) ->
  P (centerToast (onChannelChanged f pc st))
    (dismissedAlerts (onChannelChanged f pc st)).
Proof.
  intros H. unfold onChannelChanged, resetJarStates.
  destruct (pc && _); exact H.
Qed.

#[local] Opaque extract onChannelChanged onPhaseChanged.

(** The handlers act on the toast and on the dismissal record only by
    showing and by dismissing an alert. *)
Lemma alerts_SSEHandler_ind d st :
  P (centerToast st) (dismissedAlerts st) ->
  P (centerToast (SSEHandler d st)) (dismissedAlerts (SSEHandler d st)).
Proof.
  intros H. destruct d as [d|]; [|exact H].
  rewrite SSEHandler_obj. cbv zeta.
  match goal with
  | |- context [updateCircles ?f ?s] =>
      destruct (updateCircles_shape f s) as (? & ? & ? & ->)
  end.
  destruct (phase_is _ _), (currentChannel st =? _); simpl;
    first [ exact H
          | apply alerts_onChannelChanged_ind; exact H
          | apply alerts_onPhaseChanged_ind;
            first [exact H | apply alerts_onChannelChanged_ind; exact H] ].
Qed.

#[local] Transparent extract onChannelChanged onPhaseChanged.

Lemma alerts_step_ind st i :
  P (centerToast st) (dismissedAlerts st) ->
  P (centerToast (step st i)) (dismissedAlerts (step st i)).
Proof.
  intros H.
  assert (forall s,
            centerToast s = centerToast st ->
            dismissedAlerts s = dismissedAlerts st ->
            P (centerToast s) (dismissedAlerts s)) as Hsame.
  { intros s -> ->. exact H. }
  destruct i as [d| | |r| |r|j| | | |p|]; cbn [step];
    try (apply Hsame; reflexivity).
  - apply alerts_SSEHandler_ind, H.
  - apply Hsame; unfold btnStartClick; repeat case_match; reflexivity.
  - apply Hsame; unfold countdownTick, startMeasurement; repeat case_match;
      reflexivity.
  - destruct r as [[] m|e]; apply Hsame; reflexivity.
  - destruct r as [[] m|e]; apply Hsame; reflexivity.
  - apply Hsame; unfold jarClick; case_match; reflexivity.
  - apply P_dismiss, H.
Qed.

Lemma alerts_run_ind inputs st :
  P (centerToast st) (dismissedAlerts st) ->
  P (centerToast (run st inputs)) (dismissedAlerts (run st inputs)).
Proof.
  revert st. induction inputs as [|i inputs IH]; intros st H; [exact H|].
  rewrite run_cons. apply IH, alerts_step_ind, H.
Qed.
End AlertInduction.

(** X22. An acknowledgement is never lost: if the displayed toast, when there
    is one, closed over the record that is in the session store, then every
    key acknowledged now is still acknowledged after any sequence of inputs,
    and the toast on display then still holds the stored record. *)
Theorem acknowledgements_persist (st : State) (inputs : list Input) (key : string) :
  toast_fresh st ->
  dismissedAlerts st !! key = Some true ->
  dismissedAlerts (run st inputs) !! key = Some true
  /\ toast_fresh (run st inputs).
Proof.
  intros Hfresh Hkey.
  refine (alerts_run_ind
    (fun toast record =>
       record !! key = Some true
       /\ forall t, toast = Some t -> toast_dismissed t = record)
    _ _ inputs st _); [| |split; [exact Hkey|exact Hfresh]].
  - intros m t s [Hk Hf].
    destruct (decide (dismissedAlerts s !! dismissKeyOf s t m = Some true))
      as [Hd|Hd].
    + rewrite showAlert_dismissed by exact Hd. split; [exact Hk|exact Hf].
    + rewrite showAlert_shown by exact Hd. split; [exact Hk|].
      intros t' [= <-]. reflexivity.
  - intros s [Hk Hf]. unfold dismissToast.
    destruct (centerToast s) as [t|] eqn:Ht;
      [|split; [exact Hk | intros t; rewrite Ht; discriminate]].
    simpl. split; [|discriminate].
    rewrite (Hf t eq_refl).
    destruct (decide (toast_dismissKey t = key)) as [->|Hne].
    + apply lookup_insert_eq.
    + rewrite lookup_insert_ne by exact Hne. exact Hk.
Qed.

Lemma acknowledgements_persist_witness :
  toast_fresh (dismissToast (showAlert "Saved" "info" initial))
  /\ dismissedAlerts (dismissToast (showAlert "Saved" "info" initial))
       !! "0:info:Saved"%string = Some true
  /\ dismissedAlerts
       (run (dismissToast (showAlert "Saved" "info" initial))
          [ SSE (Some (phaseOnly "ABORTED")); ToastClick; StartClick ])
       !! "0:info:Saved"%string = Some true.
Proof.
  assert (toast_fresh (dismissToast (showAlert "Saved" "info" initial))) as H
    by (intros t Ht; discriminate Ht).
  split; [exact H|]. split; [vm_compute; reflexivity|].
  apply (acknowledgements_persist _ _ _ H). vm_compute. reflexivity.
Defined.

(** ** Dedup keys *)

Lemma append_nil_l (s : string) : "" +:+ s = s.
Proof. reflexivity. Qed.

Lemma colon_split (s1 s2 r1 r2 : string) :
  JS.includes ":" s1 = false -> JS.includes ":" s2 = false ->
  s1 +:+ ":" +:+ r1 = s2 +:+ ":" +:+ r2 ->
  s1 = s2 /\ r1 = r2.
Proof.
  revert s2. induction s1 as [|a s1 IH]; intros [|b s2] H1 H2 E;
    rewrite ?append_nil_l, ?append_cons in E.
  - injection E as E. auto.
  - injection E as <- _. simpl in H2. discriminate H2.
  - injection E as -> _. simpl in H1. discriminate H1.
  - injection E as Eab E. subst b. cbn [JS.includes] in H1, H2.
    destruct (Ascii.eqb ":" a); [discriminate|].
    destruct (IH s2 H1 H2 E) as [-> ->]. auto.
Qed.

(** X23. For alert types that contain no colon, two alerts of one run have
    the same dedup key only if they agree in type and in message; so
    dismissing one alert does not silence a different one: shown after the
    dismissal, the other alert becomes the toast on display unless it was
    acknowledged itself. *)
Theorem distinct_alerts_distinct_keys
    (st : State) (type1 message1 type2 message2 : string) :
  JS.includes ":" type1 = false ->
  JS.includes ":" type2 = false ->
  (dismissKeyOf st type1 message1 = dismissKeyOf st type2 message2 ->
     type1 = type2 /\ message1 = message2)
  /\ ((type1, message1) <> (type2, message2) ->
      dismissedAlerts st !! dismissKeyOf st type1 message1 <> Some true ->
      dismissedAlerts st !! dismissKeyOf st type2 message2 <> Some true ->
      toast_message <$>
        centerToast
          (showAlert message2 type2 (dismissToast (showAlert message1 type1 st)))
      = Some message2).
Proof.
  intros H1 H2.
  assert (dismissKeyOf st type1 message1 = dismissKeyOf st type2 message2 ->
          type1 = type2 /\ message1 = message2) as Hinj.
  { unfold dismissKeyOf. intros E. apply (inj (String.app _)) in E.
    apply (inj (String.app ":")) in E.
    apply colon_split in E; assumption. }
  split; [exact Hinj|].
  intros Hne Hk1 Hk2.
  rewrite (showAlert_shown message1 type1 st Hk1).
  rewrite showAlert_shown; [reflexivity|].
  change (<[dismissKeyOf st type1 message1 := true]> (dismissedAlerts st)
            !! dismissKeyOf st type2 message2 <> Some true).
  rewrite lookup_insert_ne; [exact Hk2|].
  intros E. destruct (Hinj E) as [-> ->]. now apply Hne.
Qed.

Lemma distinct_alerts_distinct_keys_witness :
  JS.includes ":" "info" = false
  /\ JS.includes ":" "danger" = false
  /\ toast_message <$>
       centerToast
         (showAlert "Saved" "danger" (dismissToast (showAlert "Saved" "info" initial)))
     = Some "Saved"%string.
Proof.
  split; [reflexivity|]. split; [reflexivity|].
  refine (proj2 (distinct_alerts_distinct_keys initial "info" "Saved" "danger" "Saved"
                   eq_refl eq_refl) _ _ _);
    [discriminate | vm_compute; discriminate | vm_compute; discriminate].
Defined.

(** ** Preferences *)

(** X24. Preferences that arrive with every field, and with a mask as long as
    the grid, are what [collectPrefsData] then reads back for the start
    request; preferences that arrive without fields give 300, 5, 1 and no jar
    selected. *)
Theorem prefs_round_trip (st : State) (a b c : Z) (mask : list bool) :
  (length mask = length (jars st) ->
   collectPrefsData
     (prefsLoaded {| p_measurement_duration := Some a; p_pause_seconds := Some b;
                     p_repeat_count := Some c; p_include_channels := Some mask |} st)
   = {| measurement_duration := a; pause_seconds := b; repeat_count := c;
        include_channels := mask |})
  /\ collectPrefsData
       (prefsLoaded {| p_measurement_duration := None; p_pause_seconds := None;
                       p_repeat_count := None; p_include_channels := None |} st)
     = {| measurement_duration := 300; pause_seconds := 5; repeat_count := 1;
          include_channels := replicate (length (jars st)) false |}.
Proof.
  unfold collectPrefsData, prefsLoaded. cbn [default p_measurement_duration
    p_pause_seconds p_repeat_count p_include_channels].
  split.
  - intros Hlen. rewrite getJarMask_applyJarMask by exact Hlen. reflexivity.
  - rewrite applyJarMask_nil, getJarMask_setAllJars. reflexivity.
Qed.

Lemma prefs_round_trip_witness :
  length scenarioMask = length (jars initial)
  /\ collectPrefsData
       (prefsLoaded {| p_measurement_duration := Some 120; p_pause_seconds := Some 10;
                       p_repeat_count := Some 2;
                       p_include_channels := Some scenarioMask |} initial)
     = {| measurement_duration := 120; pause_seconds := 10; repeat_count := 2;
          include_channels := scenarioMask |}.
Proof.
  split; [reflexivity|].
  apply (prefs_round_trip initial 120 10 2 scenarioMask). reflexivity.
Defined.
